(** * linx-server storage backends: the local-filesystem backend

    A shallow embedding of [backends/storage.go] and
    [backends/localfs/localfs.go].  The filesystem is a finite map from
    paths to byte contents; every operation of [LocalfsBackend] is a
    function over an explicit [World] (files, injected I/O faults, clock,
    configured limits).  Library code the backend calls but does not own
    (path joining, SHA-256, MIME sniffing, the JSON codec, the archive
    lister, the HTTP file server) is abstracted as section variables.
    Directories are not part of the file map: [os.ReadDir] lists the
    paths that lie below the directory. *)

From Stdlib Require Import ZArith Lia Strings.Byte Ascii String DecimalString.
From stdpp Require Import gmap strings list sorting.

Local Open Scope string_scope.
Local Open Scope list_scope.
Local Open Scope Z_scope.

(** ** Go base types *)

(** [int64] wrap-around, used where the source converts or multiplies. *)
Definition wrap64 (z : Z) : Z := (z + 2^63) mod 2^64 - 2^63.

(** [time.Duration]: a signed 64-bit count of nanoseconds. *)
Definition Duration := Z.
Definition time_Second : Duration := 1000000000.

(** [time.Time], as an instant counted in nanoseconds since the Unix epoch
    (location and monotonic reading are not modelled). *)
Record Time := mkTime { unixNano : Z }.

(** [t.Add(d)] *)
Definition time_Add (t : Time) (d : Duration) : Time := mkTime (unixNano t + d).
(** [t.Unix()]: whole seconds since the epoch, rounded towards minus infinity. *)
Definition Time_Unix (t : Time) : Z := unixNano t / time_Second.
(** [time.Unix(sec, nsec)] *)
Definition time_Unix (sec nsec : Z) : Time := mkTime (sec * time_Second + nsec).

(** ** package backends *)

Module backends.

(** Modelled from the spec: the declaration of [backends.Metadata]
    (section 3, data model) is not among the sources; the fields are the
    ones [localfs.go] reads and writes. *)
Record Metadata := mkMetadata {
  DeleteKey : string;
  AccessKey : string;
  Sha256sum : string;
  Mimetype : string;
  Size : Z;
  Expiry : Time;
  SrcIp : string;
  OriginalName : string;
  ArchiveFiles : list string
}.

(** [var Limits struct { MaxDurationTime uint64; MaxDurationSize int64; MaxSize int64 }] *)
Record LimitsT := mkLimits {
  MaxDurationTime : Z;
  MaxDurationSize : Z;
  MaxSize : Z
}.

(** Errors a file operation of the operating system reports besides
    "no such file". *)
Inductive IOFault := EACCES | EIO | ENOSPC | EBADF | ENOTDIR | ENAMETOOLONG | EISDIR.
Inductive Errno := ENOENT | Fault (f : IOFault).

(** Go [error] values that reach the backend.  [NotFoundErr],
    [FileEmptyError] and [FileTooLargeError] are the variables of
    [storage.go].  Modelled from the spec: [BadMetadata] (section 7) is
    declared next to [Metadata], outside the sources. *)
Inductive error :=
| NotFoundErr
| FileEmptyError
| FileTooLargeError
| BadMetadata
| PathError (e : Errno)        (* *os.PathError of os.Open/Create/Remove/Stat/Read/Write *)
| EOF                          (* io.EOF *)
| SyntaxError                  (* a decoding error of encoding/json *)
| StreamError (code : nat).    (* any other error of the caller's reader *)

End backends.
Import backends.

(** The zero [time.Time{}]: January 1 of year 1, 00:00:00 UTC, which is
    62135596800 seconds before the Unix epoch. *)
Definition zeroTime : Time := mkTime (-62135596800 * time_Second).

(** The zero value of [Metadata] (named results start out zeroed); its
    [Expiry] is the zero [Time], not the Unix epoch. *)
Definition zeroMetadata : Metadata :=
  mkMetadata EmptyString EmptyString EmptyString EmptyString 0 zeroTime
    EmptyString EmptyString [].

(** [os.IsNotExist(err)] *)
Definition os_IsNotExist (err : error) : bool :=
  match err with PathError ENOENT => true | _ => false end.

(** ** The world the backend runs in *)

(** Injected I/O failures, per path.  [stat_fault], [remove_fault],
    [read_fault] and [write_fault] hit a file that exists, [create_fault]
    the creation itself.  [open_fault] hits the open of a file that
    exists and, when the path cannot be resolved at all (a component
    that is a regular file, a name that is too long, a directory that
    may not be searched), also the open of a path with no file: such a
    path cannot be created either, so there [create_fault] is set as
    well.  A directory addressed as if it were a file (the path of an
    empty key) opens and then fails every read: in a world it is an
    entry of the file map with a read fault ([EISDIR]). *)
Record Faults := mkFaults {
  create_fault : string -> option IOFault;
  open_fault : string -> option IOFault;
  stat_fault : string -> option IOFault;
  remove_fault : string -> option IOFault;
  read_fault : string -> option IOFault;
  (** [Some (cap, e)]: the file cannot grow beyond [cap] bytes; a write
      that would pass it is cut short and fails with [e]. *)
  write_fault : string -> option (nat * IOFault)
}.

Definition no_faults : Faults :=
  mkFaults (fun _ => None) (fun _ => None) (fun _ => None)
           (fun _ => None) (fun _ => None) (fun _ => None).

Record World := mkWorld {
  files : gmap string (list byte);
  faults : Faults;
  now : Time;               (* what time.Now() returns *)
  Limits : LimitsT          (* the package variable backends.Limits *)
}.

Definition set_files (w : World) (fs : gmap string (list byte)) : World :=
  mkWorld fs (faults w) (now w) (Limits w).

(** An open [*os.File]: the path it was opened at and the current offset. *)
Record File := mkFile { f_path : string; f_off : nat }.

(** The [io.ReadCloser] result of [Get], a Go interface value: either
    the nil interface, or an interface that holds a [*os.File].  The
    pointer held is nil ([fileStream None]) when it is the first result
    of an [os.Open] that failed: such a stream compares unequal to
    [nil]. *)
Inductive ReadCloser :=
| nilStream
| fileStream (f : option File).

(** [os.Stat(p)], reduced to the size it reports. *)
Definition os_Stat (p : string) (w : World) : Z + error :=
  match files w !! p with
  | None => inr (PathError ENOENT)
  | Some c =>
      match stat_fault (faults w) p with
      | Some e => inr (PathError (Fault e))
      | None => inl (Z.of_nat (length c))
      end
  end.

(** [os.Remove(p)] *)
Definition os_Remove (p : string) (w : World) : option error * World :=
  match files w !! p with
  | None => (Some (PathError ENOENT), w)
  | Some _ =>
      match remove_fault (faults w) p with
      | Some e => (Some (PathError (Fault e)), w)
      | None => (None, set_files w (delete p (files w)))
      end
  end.

(** What opening a path with no file reports: [ENOENT] when the path
    resolves up to its last component, which is the case whenever the
    file could be created there or no open fault is set; the fault of
    the open ([ENOTDIR], [ENAMETOOLONG], [EACCES], ...) when the path
    itself cannot be resolved. *)
Definition open_absent (p : string) (w : World) : error :=
  match open_fault (faults w) p, create_fault (faults w) p with
  | Some e, Some _ => PathError (Fault e)
  | _, _ => PathError ENOENT
  end.

(** [os.Open(p)]: read-only, offset 0. *)
Definition os_Open (p : string) (w : World) : File + error :=
  match files w !! p with
  | None => inr (open_absent p w)
  | Some _ =>
      match open_fault (faults w) p with
      | Some e => inr (PathError (Fault e))
      | None => inl (mkFile p 0)
      end
  end.

(** [os.Create(p)]: creates or truncates, read-write, offset 0. *)
Definition os_Create (p : string) (w : World) : (File + error) * World :=
  match create_fault (faults w) p with
  | Some e => (inr (PathError (Fault e)), w)
  | None => (inl (mkFile p 0), set_files w (<[p := []]> (files w)))
  end.

(** The bytes of [old] with [c] written over them at offset [off]. *)
Definition write_at (off : nat) (c old : list byte) : list byte :=
  take off old ++ replicate (off - length old) x00 ++ c ++ drop (off + length c) old.

(** [f.Write(c)]: returns the number of bytes written and the error.  A
    handle whose file is gone is not reachable from the backend and is
    reported as [EBADF]. *)
Definition file_Write (f : File) (c : list byte) (w : World)
  : (Z * option error) * (File * World) :=
  match files w !! f_path f with
  | None => ((0, Some (PathError (Fault EBADF))), (f, w))
  | Some old =>
      let c' :=
        match write_fault (faults w) (f_path f) with
        | Some (cap, _) => take (cap - f_off f) c
        | None => c
        end in
      let err :=
        match write_fault (faults w) (f_path f) with
        | Some (cap, e) =>
            if decide (length c <= cap - f_off f)%nat then None
            else Some (PathError (Fault e))
        | None => None
        end in
      ((Z.of_nat (length c'), err),
       (mkFile (f_path f) (f_off f + length c'),
        set_files w (<[f_path f := write_at (f_off f) c' old]> (files w))))
  end.

(** [f.Seek(offset, 0)]; the source ignores both results. *)
Definition file_Seek (f : File) (offset : nat) : File := mkFile (f_path f) offset.

(** [f.Read(buf)] with [len(buf) = n]: the bytes read and the error. *)
Definition file_Read (f : File) (n : nat) (w : World)
  : (list byte * option error) * File :=
  match files w !! f_path f with
  | None => (([], Some (PathError (Fault EBADF))), f)
  | Some c =>
      match read_fault (faults w) (f_path f) with
      | Some e => (([], Some (PathError (Fault e))), f)
      | None =>
          match take n (drop (f_off f) c) with
          | [] => (([], Some EOF), f)
          | got => ((got, None), mkFile (f_path f) (f_off f + length got))
          end
      end
  end.

(** Everything a reader over [f] yields from the current offset on. *)
Definition io_ReadAll (f : File) (w : World) : list byte + error :=
  match files w !! f_path f with
  | None => inr (PathError (Fault EBADF))
  | Some c =>
      match read_fault (faults w) (f_path f) with
      | Some e => inr (PathError (Fault e))
      | None => inl (drop (f_off f) c)
      end
  end.

(** An [io.Reader] supplied by the caller: the chunks its successive
    [Read] calls deliver, then the error that ends the stream ([EOF] for
    a clean end). *)
Record Reader := mkReader { r_chunks : list (list byte); r_end : error }.

(** The whole content a reader delivers. *)
Definition r_content (r : Reader) : list byte := concat (r_chunks r).

(** [hex.EncodeToString] *)
Definition hex_digit (n : N) : ascii :=
  match n with
  | 0 => "0" | 1 => "1" | 2 => "2" | 3 => "3" | 4 => "4" | 5 => "5"
  | 6 => "6" | 7 => "7" | 8 => "8" | 9 => "9" | 10 => "a" | 11 => "b"
  | 12 => "c" | 13 => "d" | 14 => "e" | _ => "f"
  end%N%char.

Fixpoint hex_EncodeToString (bs : list byte) : string :=
  match bs with
  | [] => EmptyString
  | b :: rest =>
      String (hex_digit (Byte.to_N b / 16))
        (String (hex_digit (Byte.to_N b mod 16)) (hex_EncodeToString rest))
  end.

(** [strip_prefix pre s] is what follows [pre] in [s]. *)
Fixpoint strip_prefix (pre s : string) : option string :=
  match pre with
  | EmptyString => Some s
  | String a pre' =>
      match s with
      | String c s' => if Ascii.eqb a c then strip_prefix pre' s' else None
      | EmptyString => None
      end
  end.

(** The characters of [s] before its first slash. *)
Fixpoint first_segment (s : string) : string :=
  match s with
  | EmptyString => EmptyString
  | String c s' =>
      if Ascii.eqb c "/"%char then EmptyString else String c (first_segment s')
  end.

(** The name under which the path [p] shows up in the directory [dir]:
    the first segment of [p] below [dir], for a [dir] written without a
    trailing slash. *)
Definition entry_of (dir p : string) : option string :=
  match strip_prefix (dir ++ "/") p with
  | Some rest =>
      match first_segment rest with
      | EmptyString => None
      | name => Some name
      end
  | None => None
  end.

(** The order [os.ReadDir] sorts names by: bytewise comparison. *)
Definition name_le (s t : string) : Prop := String.leb s t = true.

Global Instance name_le_dec s t : Decision (name_le s t) :=
  decide (String.leb s t = true).

(** [os.ReadDir(dir)], reduced to the entry names: the directory is opened
    and read, and the names come back without repetition, sorted.  The
    directory itself is taken to exist. *)
Definition os_ReadDir (dir : string) (w : World) : list string + error :=
  match open_fault (faults w) dir with
  | Some e => inr (PathError (Fault e))
  | None =>
      match read_fault (faults w) dir with
      | Some e => inr (PathError (Fault e))
      | None =>
          inl (merge_sort name_le
                 (remove_dups (omap (entry_of dir) (elements (dom (files w))))))
      end
  end.

(** The value of a lower-case hexadecimal digit, from its character code. *)
Definition hex_value (c : ascii) : option N :=
  let n := N_of_ascii c in
  if ((48 <=? n) && (n <=? 57))%N then Some (n - 48)%N
  else if ((97 <=? n) && (n <=? 102))%N then Some (n - 87)%N
  else None.

(** ** package localfs *)

Record LocalfsBackend := NewLocalfsBackend {
  metaPath : string;
  filesPath : string
}.

(** The sidecar record; the field tags ([omitempty]) belong to the codec. *)
Record MetadataJSON := mkMetadataJSON {
  DeleteKey : string;
  AccessKey : string;
  Sha256sum : string;
  Mimetype : string;
  Size : Z;
  Expiry : Z;
  SrcIp : string;
  OriginalName : string;
  ArchiveFiles : list string
}.

(** ** Reference instances of the library parameters

    Small executable stand-ins for the library code the backend is
    parameterised over; they are used to run the model on concrete
    inputs. *)

Module Ref.

(** A path join for keys that [path.Join] has nothing to clean in (no
    empty, [.] or [..] element). *)
Definition path_Join (dir key : string) : string := (dir ++ "/" ++ key)%string.

(** A one-byte additive checksum standing in for the digest. *)
Definition sum_digest (bs : list byte) : list byte :=
  match Byte.of_N (fold_right (fun b acc => (Byte.to_N b + acc) mod 256)%N 0%N bs) with
  | Some d => [d]
  | None => []
  end.

(** Content sniffing on the first two bytes only. *)
Definition mimetype_Detect (header : list byte) : string :=
  match header with
  | "P"%byte :: "K"%byte :: _ => "application/zip"
  | _ => "application/octet-stream"
  end.

(** An archive lister that fails on every zip and lists nothing else. *)
Definition ListArchiveFiles (mimetype : string) (size : Z) (r : list byte + error)
  : list string * option error :=
  if String.eqb mimetype "application/zip" then ([], Some (StreamError 1))
  else ([], None).

(** [time.Unix(0, 0)] *)
Definition NeverExpire : Time := time_Unix 0 0.

(** *** A codec for the JSON subset that [Encode] emits *)

Definition dquote : ascii := "034"%char.
Definition backslash : ascii := "092"%char.
Definition newline : ascii := "010"%char.

Fixpoint escape (s : string) : string :=
  match s with
  | EmptyString => EmptyString
  | String c rest =>
      if Ascii.eqb c dquote || Ascii.eqb c backslash
      then String backslash (String c (escape rest))
      else String c (escape rest)
  end.

Definition quote (s : string) : string :=
  (String dquote (escape s) ++ String dquote EmptyString)%string.

Definition print_int (z : Z) : string := NilZero.string_of_int (Z.to_int z).

Fixpoint print_array (l : list string) : string :=
  match l with
  | [] => EmptyString
  | [x] => quote x
  | x :: rest => (quote x ++ "," ++ print_array rest)%string
  end.

Definition str_member (name value : string) : list string :=
  [(quote name ++ ":" ++ quote value)%string].
Definition opt_str_member (name value : string) : list string :=
  if String.eqb value EmptyString then [] else str_member name value.
Definition int_member (name : string) (value : Z) : list string :=
  [(quote name ++ ":" ++ print_int value)%string].

Fixpoint join_commas (l : list string) : string :=
  match l with
  | [] => EmptyString
  | [x] => x
  | x :: rest => (x ++ "," ++ join_commas rest)%string
  end.

Definition json_Marshal (j : MetadataJSON) : list byte :=
  list_byte_of_string
    ("{" ++
     join_commas
       (str_member "delete_key" (DeleteKey j) ++
        opt_str_member "access_key" (AccessKey j) ++
        str_member "sha256sum" (Sha256sum j) ++
        str_member "mimetype" (Mimetype j) ++
        int_member "size" (Size j) ++
        int_member "expiry" (Expiry j) ++
        opt_str_member "srcip" (SrcIp j) ++
        opt_str_member "original_name" (OriginalName j) ++
        match ArchiveFiles j with
        | [] => []
        | l => [(quote "archive_files" ++ ":[" ++ print_array l ++ "]")%string]
        end) ++
     "}" ++ String newline EmptyString)%string.

(** The characters of a string literal up to its closing quote. *)
Fixpoint parse_chars (s : string) : option (string * string) :=
  match s with
  | EmptyString => None
  | String c rest =>
      if Ascii.eqb c dquote then Some (EmptyString, rest)
      else if Ascii.eqb c backslash then
        match rest with
        | String e rest' =>
            match parse_chars rest' with
            | Some (v, r) => Some (String e v, r)
            | None => None
            end
        | EmptyString => None
        end
      else
        match parse_chars rest with
        | Some (v, r) => Some (String c v, r)
        | None => None
        end
  end.

Definition parse_string (s : string) : option (string * string) :=
  match s with
  | String c rest => if Ascii.eqb c dquote then parse_chars rest else None
  | EmptyString => None
  end.

Definition is_int_char (c : ascii) : bool :=
  Ascii.eqb c "-"%char ||
  ((48 <=? nat_of_ascii c)%nat && (nat_of_ascii c <=? 57)%nat).

Fixpoint span_int (s : string) : string * string :=
  match s with
  | EmptyString => (EmptyString, EmptyString)
  | String c rest =>
      if is_int_char c then let '(d, r) := span_int rest in (String c d, r)
      else (EmptyString, s)
  end.

Definition parse_int (s : string) : option (Z * string) :=
  match span_int s with
  | (EmptyString, _) => None
  | (d, r) =>
      match NilZero.int_of_string d with
      | Some i => Some (Z.of_int i, r)
      | None => None
      end
  end.

Fixpoint parse_elems (fuel : nat) (s : string) : option (list string * string) :=
  match fuel with
  | O => None
  | S fuel =>
      match parse_string s with
      | Some (v, String c rest) =>
          if Ascii.eqb c ","%char then
            match parse_elems fuel rest with
            | Some (vs, r) => Some (v :: vs, r)
            | None => None
            end
          else if Ascii.eqb c "]"%char then Some ([v], rest)
          else None
      | _ => None
      end
  end.

Definition parse_array (s : string) : option (list string * string) :=
  match s with
  | String "["%char (String "]"%char rest) => Some ([], rest)
  | String "["%char rest => parse_elems (String.length rest) rest
  | _ => None
  end.

Definition emptyJSON : MetadataJSON :=
  mkMetadataJSON EmptyString EmptyString EmptyString EmptyString 0 0
    EmptyString EmptyString [].

(** One member [name:value], stored into the record by its name. *)
Definition parse_member (name rest : string) (j : MetadataJSON)
  : option (MetadataJSON * string) :=
  let str (set : string -> MetadataJSON) :=
    match parse_string rest with
    | Some (v, r) => Some (set v, r)
    | None => None
    end in
  let int (set : Z -> MetadataJSON) :=
    match parse_int rest with
    | Some (v, r) => Some (set v, r)
    | None => None
    end in
  if String.eqb name "delete_key" then
    str (fun v => mkMetadataJSON v (AccessKey j) (Sha256sum j) (Mimetype j) (Size j)
                    (Expiry j) (SrcIp j) (OriginalName j) (ArchiveFiles j))
  else if String.eqb name "access_key" then
    str (fun v => mkMetadataJSON (DeleteKey j) v (Sha256sum j) (Mimetype j) (Size j)
                    (Expiry j) (SrcIp j) (OriginalName j) (ArchiveFiles j))
  else if String.eqb name "sha256sum" then
    str (fun v => mkMetadataJSON (DeleteKey j) (AccessKey j) v (Mimetype j) (Size j)
                    (Expiry j) (SrcIp j) (OriginalName j) (ArchiveFiles j))
  else if String.eqb name "mimetype" then
    str (fun v => mkMetadataJSON (DeleteKey j) (AccessKey j) (Sha256sum j) v (Size j)
                    (Expiry j) (SrcIp j) (OriginalName j) (ArchiveFiles j))
  else if String.eqb name "size" then
    int (fun v => mkMetadataJSON (DeleteKey j) (AccessKey j) (Sha256sum j) (Mimetype j) v
                    (Expiry j) (SrcIp j) (OriginalName j) (ArchiveFiles j))
  else if String.eqb name "expiry" then
    int (fun v => mkMetadataJSON (DeleteKey j) (AccessKey j) (Sha256sum j) (Mimetype j)
                    (Size j) v (SrcIp j) (OriginalName j) (ArchiveFiles j))
  else if String.eqb name "srcip" then
    str (fun v => mkMetadataJSON (DeleteKey j) (AccessKey j) (Sha256sum j) (Mimetype j)
                    (Size j) (Expiry j) v (OriginalName j) (ArchiveFiles j))
  else if String.eqb name "original_name" then
    str (fun v => mkMetadataJSON (DeleteKey j) (AccessKey j) (Sha256sum j) (Mimetype j)
                    (Size j) (Expiry j) (SrcIp j) v (ArchiveFiles j))
  else if String.eqb name "archive_files" then
    match parse_array rest with
    | Some (v, r) =>
        Some (mkMetadataJSON (DeleteKey j) (AccessKey j) (Sha256sum j) (Mimetype j)
                (Size j) (Expiry j) (SrcIp j) (OriginalName j) v, r)
    | None => None
    end
  else None.

Fixpoint parse_members (fuel : nat) (s : string) (j : MetadataJSON)
  : option (MetadataJSON * string) :=
  match fuel with
  | O => None
  | S fuel =>
      match parse_string s with
      | Some (name, String ":"%char rest) =>
          match parse_member name rest j with
          | Some (j, String c r) =>
              if Ascii.eqb c ","%char then parse_members fuel r j
              else if Ascii.eqb c "}"%char then Some (j, r)
              else None
          | _ => None
          end
      | _ => None
      end
  end.

Definition json_Unmarshal (bs : list byte) : option MetadataJSON :=
  match string_of_list_byte bs with
  | String "{"%char (String "}"%char _) => Some emptyJSON
  | String "{"%char rest =>
      match parse_members (String.length rest) rest emptyJSON with
      | Some (j, _) => Some j
      | None => None
      end
  | _ => None
  end.

(** *** Inputs used to run the model *)

Definition backend : LocalfsBackend := NewLocalfsBackend "meta" "files".

(** A maximum lifetime of 3600 s above 1000 bytes; uploads below 1 MB. *)
Definition limits : LimitsT := mkLimits 3600 1000 1000000.
(** The same policy with uploads below 10 bytes only. *)
Definition tight_limits : LimitsT := mkLimits 3600 1000 10.

(** 2023-11-14 22:13:20.5 UTC *)
Definition clock : Time := mkTime 1700000000500000000.

Definition empty_world : World := mkWorld ∅ no_faults clock limits.
Definition tight_world : World := mkWorld ∅ no_faults clock tight_limits.

(** A world whose metadata directory runs out of space after 3 bytes of
    the sidecar of key [k]. *)
Definition meta_full_world : World :=
  mkWorld ∅
    (mkFaults (fun _ => None) (fun _ => None) (fun _ => None)
              (fun _ => None) (fun _ => None)
              (fun p => if String.eqb p "meta/k" then Some (3%nat, ENOSPC) else None))
    clock limits.

(** A two-chunk text upload, a zip-like upload and an empty upload. *)
Definition hello : Reader :=
  mkReader [list_byte_of_string "hello, "; list_byte_of_string "world"] EOF.
Definition nothing : Reader := mkReader [] EOF.
(** 2000 bytes in two reads. *)
Definition big : Reader :=
  mkReader [replicate 1200 "a"%byte; replicate 800 "b"%byte] EOF.

(** A record whose expiry falls in the middle of a second. *)
Definition half_second : Metadata :=
  mkMetadata "del" EmptyString "ab12" "text/plain" 5 (mkTime 1500000000)
    EmptyString "a.txt" [].

(** A stored sidecar, and a world holding key [k] with it. *)
Definition sidecar : MetadataJSON :=
  mkMetadataJSON "del" EmptyString "ab12" "text/plain" 5 1700003600
    "10.0.0.1" "a.txt" [].
Definition stored_world (mjson : MetadataJSON) : World :=
  mkWorld (<["meta/k" := json_Marshal mjson]>
             (<["files/k" := list_byte_of_string "hello"]> ∅))
    no_faults clock limits.

(** Key [k] with its data file and no sidecar. *)
Definition data_only_world : World :=
  mkWorld (<["files/k" := list_byte_of_string "hello"]> ∅) no_faults clock limits.

(** Key [k] stored, on a metadata directory that is full. *)
Definition stored_meta_full_world : World :=
  mkWorld (files (stored_world sidecar)) (faults meta_full_world) clock limits.

(** The bytes of [hello] in a single read. *)
Definition hello_whole : Reader := mkReader [list_byte_of_string "hello, world"] EOF.

(** A configuration without a maximum lifetime. *)
Definition unlimited_world : World := mkWorld ∅ no_faults clock (mkLimits 0 1000 1000000).

(** Key [k] stored.  Its sidecar and its data file are regular files,
    so no path below them resolves: opening or creating one fails with
    [ENOTDIR]. *)
Definition below_k (p : string) : option IOFault :=
  match strip_prefix "meta/k/" p, strip_prefix "files/k/" p with
  | None, None => None
  | _, _ => Some ENOTDIR
  end.
Definition nested_key_world : World :=
  mkWorld (files (stored_world sidecar))
    (mkFaults below_k below_k (fun _ => None)
              (fun _ => None) (fun _ => None) (fun _ => None))
    clock limits.

End Ref.

Section Localfs.

(** [path.Join] *)
Variable path_Join : string -> string -> string.
(** [sha256.New()] / [Sum(nil)]: the digest of everything written to the hasher. *)
Variable sha256_Sum : list byte -> list byte.
(** [mimetype.Detect(prefix).String()] *)
Variable mimetype_Detect : list byte -> string.
(** [helpers.ListArchiveFiles(mimetype, size, r)], given what reading [r] yields. *)
Variable helpers_ListArchiveFiles :
  string -> Z -> list byte + error -> list string * option error.
(** [expiry.NeverExpire] *)
Variable expiry_NeverExpire : Time.
(** [encoding/json] on [MetadataJSON]: the bytes [Encode] emits, and what
    [Decode] makes of a file's bytes. *)
Variable json_Marshal : MetadataJSON -> list byte.
Variable json_Unmarshal : list byte -> option MetadataJSON.
(** [http.ServeFile]: the response produced for a request from what
    opening and reading the named file yields. *)
Variables Request Response : Type.
Variable http_respond : Request -> list byte + error -> Response.


(** [encoder.Encode(mjson)] on the open sidecar. *)
Definition json_Encode (dst : File) (mjson : MetadataJSON) (w : World)
  : option error * World :=
  let '((_, err), (_, w)) := file_Write dst (json_Marshal mjson) w in (err, w).

(** [decoder.Decode(&mjson)] on the open sidecar. *)
Definition json_Decode (f : File) (w : World) : MetadataJSON + error :=
  match io_ReadAll f w with
  | inr e => inr e
  | inl bs =>
      match json_Unmarshal bs with
      | Some mjson => inl mjson
      | None => inr SyntaxError
      end
  end.

Definition Delete (b : LocalfsBackend) (key : string) (w : World)
  : option error * World :=
  let '(err, w) := os_Remove (path_Join (filesPath b) key) w in
  match err with
  | Some _ => (err, w)
  | None => os_Remove (path_Join (metaPath b) key) w
  end.

Definition Exists (b : LocalfsBackend) (key : string) (w : World)
  : bool * option error :=
  match os_Stat (path_Join (filesPath b) key) w with
  | inl _ => (true, None)
  | inr err => (false, Some err)
  end.

Definition Head (b : LocalfsBackend) (key : string) (w : World)
  : Metadata * option error :=
  let metadata := zeroMetadata in
  match os_Open (path_Join (metaPath b) key) w with
  | inr err =>
      if os_IsNotExist err then (metadata, Some NotFoundErr)
      else (metadata, Some BadMetadata)
  | inl f =>
      match json_Decode f w with
      | inr _ => (metadata, Some BadMetadata)
      | inl mjson =>
          ({| backends.DeleteKey := DeleteKey mjson;
              backends.AccessKey := AccessKey mjson;
              backends.Mimetype := Mimetype mjson;
              backends.ArchiveFiles := ArchiveFiles mjson;
              backends.OriginalName := OriginalName mjson;
              backends.Sha256sum := Sha256sum mjson;
              backends.Expiry := time_Unix (Expiry mjson) 0;
              backends.Size := Size mjson;
              backends.SrcIp := backends.SrcIp metadata |}, None)
      end
  end.

Definition Get (b : LocalfsBackend) (key : string) (w : World)
  : Metadata * ReadCloser * option error :=
  match Head b key w with
  | (metadata, Some err) => (metadata, nilStream, Some err)
  | (metadata, None) =>
      (* [f, err = os.Open(...)]: the [*os.File] is stored in [f] whether
         or not the open failed *)
      match os_Open (path_Join (filesPath b) key) w with
      | inr err => (metadata, fileStream None, Some err)
      | inl f => (metadata, fileStream (Some f), None)
      end
  end.

(** [http.ServeFile(w, r, filePath)] *)
Definition http_ServeFile (r : Request) (filePath : string) (w : World) : Response :=
  http_respond r
    match os_Open filePath w with
    | inr err => inr err
    | inl f => io_ReadAll f w
    end.

(** The second component is what was written to the response writer. *)
Definition ServeFile (b : LocalfsBackend) (key : string) (r : Request) (w : World)
  : option error * option Response :=
  match Head b key w with
  | (_, Some err) => (Some err, None)
  | (_, None) =>
      let filePath := path_Join (filesPath b) key in
      (None, Some (http_ServeFile r filePath w))
  end.

(** The composite literal [mjson := MetadataJSON{...}] of [writeMetadata]. *)
Definition mjson_of (metadata : Metadata) : MetadataJSON :=
  {| DeleteKey := backends.DeleteKey metadata;
     AccessKey := backends.AccessKey metadata;
     Mimetype := backends.Mimetype metadata;
     ArchiveFiles := backends.ArchiveFiles metadata;
     OriginalName := backends.OriginalName metadata;
     Sha256sum := backends.Sha256sum metadata;
     Expiry := Time_Unix (backends.Expiry metadata);
     Size := backends.Size metadata;
     SrcIp := backends.SrcIp metadata |}.

Definition writeMetadata (b : LocalfsBackend) (key : string) (metadata : Metadata)
    (w : World) : option error * World :=
  let metaPath := path_Join (metaPath b) key in
  let mjson := mjson_of metadata in
  match os_Create metaPath w with
  | (inr err, w) => (Some err, w)
  | (inl dst, w) =>
      match json_Encode dst mjson w with
      | (Some err, w) =>
          let '(_, w) := os_Remove metaPath w in (Some err, w)
      | (None, w) => (None, w)
      end
  end.

(** [io.Copy] reports the error that ended the reads unless it is [io.EOF]. *)
Definition copy_error (r_end : error) : option error :=
  match r_end with
  | EOF => None
  | e => Some e
  end.

(** [io.Copy(dst, io.TeeReader(r, hasher))]: one round per [Read] of the
    tee reader, which hands every chunk to the hasher before [io.Copy]
    writes it to [dst].  Returns the byte count and error of [io.Copy]
    together with the handle, the bytes hashed so far and the world. *)
Fixpoint io_Copy (dst : File) (chunks : list (list byte)) (r_end : error)
    (hasher : list byte) (written : Z) (w : World)
  : (Z * option error) * (File * list byte * World) :=
  match chunks with
  | [] =>
      ((written, copy_error r_end), (dst, hasher, w))
  | c :: chunks =>
      let hasher := hasher ++ c in
      match c with
      | [] => io_Copy dst chunks r_end hasher written w
      | _ =>
          let '((nw, ew), (dst, w)) := file_Write dst c w in
          let written := written + nw in
          match ew with
          | Some e => ((written, Some e), (dst, hasher, w))
          | None => io_Copy dst chunks r_end hasher written w
          end
      end
  end.

(** [maxDurationTime := time.Duration(backends.Limits.MaxDurationTime) * time.Second] *)
Definition maxDurationTime (w : World) : Duration :=
  wrap64 (wrap64 (MaxDurationTime (Limits w)) * time_Second).

(** The expiry block of [Put]: the value of [fileExpiry] after it. *)
Definition fileExpiry (expiryTime : Duration) (bytes : Z) (w : World) : Time :=
  if expiryTime =? 0 then
    if (bytes >? MaxDurationSize (Limits w)) && (maxDurationTime w >? 0) then
      time_Add (now w) (maxDurationTime w)
    else
      expiry_NeverExpire
  else
    if (bytes >? MaxDurationSize (Limits w)) && (expiryTime >? maxDurationTime w) then
      time_Add (now w) (maxDurationTime w)
    else
      time_Add (now w) expiryTime.

Definition Put (b : LocalfsBackend) (key : string) (r : Reader)
    (expiryTime : Duration) (deleteKey accessKey srcIp originalName : string)
    (w : World) : (Metadata * option error) * World :=
  let m := zeroMetadata in
  let filePath := path_Join (filesPath b) key in
  match os_Create filePath w with
  | (inr err, w) => ((m, Some err), w)
  | (inl dst, w) =>
      let '((bytes, err), (dst, hasher, w)) :=
        io_Copy dst (r_chunks r) (r_end r) [] 0 w in
      if bytes =? 0 then
        let '(_, w) := os_Remove filePath w in ((m, Some FileEmptyError), w)
      else
        match err with
        | Some err => let '(_, w) := os_Remove filePath w in ((m, Some err), w)
        | None =>
            if bytes >=? MaxSize (Limits w) then
              let '(_, w) := os_Remove filePath w in ((m, Some FileTooLargeError), w)
            else
              let fileExpiry := fileExpiry expiryTime bytes w in
              let dst := file_Seek dst 0 in
              let '((header, err), dst) := file_Read dst 512 w in
              match err with
              | Some err => let '(_, w) := os_Remove filePath w in ((m, Some err), w)
              | None =>
                  let kind := mimetype_Detect header in
                  let dst := file_Seek dst 0 in
                  let m :=
                    {| backends.Mimetype := kind;
                       backends.Size := bytes;
                       backends.Sha256sum := hex_EncodeToString (sha256_Sum hasher);
                       backends.Expiry := fileExpiry;
                       backends.DeleteKey := deleteKey;
                       backends.AccessKey := accessKey;
                       backends.SrcIp := srcIp;
                       backends.ArchiveFiles :=
                         (helpers_ListArchiveFiles kind bytes (io_ReadAll dst w)).1;
                       backends.OriginalName := originalName |} in
                  match writeMetadata b key m w with
                  | (Some err, w) =>
                      let '(_, w) := os_Remove filePath w in ((m, Some err), w)
                  | (None, w) => ((m, None), w)
                  end
              end
        end
  end.

Definition PutMetadata (b : LocalfsBackend) (key : string) (m : Metadata) (w : World)
  : option error * World :=
  writeMetadata b key m w.

(** [List]: the loop appends the name of every directory entry. *)
Definition List (b : LocalfsBackend) (w : World) : list string * option error :=
  let output := [] in
  match os_ReadDir (filesPath b) w with
  | inr err => ([], Some err)
  | inl files => (fold_left (fun output file => output ++ [file]) files output, None)
  end.

(** [Size]; the name is taken by the field of [MetadataJSON]. *)
Definition Size_ (b : LocalfsBackend) (key : string) (w : World) : Z * option error :=
  match os_Stat (path_Join (filesPath b) key) w with
  | inr err => (0, Some err)
  | inl size => (size, None)
  end.

(** The environment injects no failure on path [p]. *)
Definition unfaulted (w : World) (p : string) : Prop :=
  create_fault (faults w) p = None /\ open_fault (faults w) p = None /\
  stat_fault (faults w) p = None /\ remove_fault (faults w) p = None /\
  read_fault (faults w) p = None /\ write_fault (faults w) p = None.

(** The record [Put] assembles once the whole stream [content] has been
    copied (step 7 of the upload pipeline). *)
Definition assembled (content : list byte) (expiryTime : Duration)
    (deleteKey accessKey srcIp originalName : string) (w : World) : Metadata :=
  let bytes := Z.of_nat (length content) in
  let kind := mimetype_Detect (take 512 content) in
  {| backends.Mimetype := kind;
     backends.Size := bytes;
     backends.Sha256sum := hex_EncodeToString (sha256_Sum content);
     backends.Expiry := fileExpiry expiryTime bytes w;
     backends.DeleteKey := deleteKey;
     backends.AccessKey := accessKey;
     backends.SrcIp := srcIp;
     backends.ArchiveFiles := (helpers_ListArchiveFiles kind bytes (inl content)).1;
     backends.OriginalName := originalName |}.

(** The [Metadata] that [Head] fills in from a decoded sidecar. *)
Definition decoded (mjson : MetadataJSON) : Metadata :=
  {| backends.DeleteKey := DeleteKey mjson;
     backends.AccessKey := AccessKey mjson;
     backends.Sha256sum := Sha256sum mjson;
     backends.Mimetype := Mimetype mjson;
     backends.Size := Size mjson;
     backends.Expiry := time_Unix (Expiry mjson) 0;
     backends.SrcIp := EmptyString;
     backends.OriginalName := OriginalName mjson;
     backends.ArchiveFiles := ArchiveFiles mjson |}.

(** The sidecar record [mjson] with another access key. *)
Definition with_AccessKey (accessKey : string) (mjson : MetadataJSON) : MetadataJSON :=
  {| DeleteKey := DeleteKey mjson;
     AccessKey := accessKey;
     Sha256sum := Sha256sum mjson;
     Mimetype := Mimetype mjson;
     Size := Size mjson;
     Expiry := Expiry mjson;
     SrcIp := SrcIp mjson;
     OriginalName := OriginalName mjson;
     ArchiveFiles := ArchiveFiles mjson |}.

(** The world in which the file at [p] holds [c]. *)
Definition with_file (w : World) (p : string) (c : list byte) : World :=
  set_files w (<[p := c]> (files w)).

(** The world without the file at [p]. *)
Definition without_file (w : World) (p : string) : World :=
  set_files w (delete p (files w)).

(** [w'] differs from [w] at most in the files at the paths [ps]. *)
Definition changes_only (ps : list string) (w w' : World) : Prop :=
  faults w' = faults w /\ now w' = now w /\ Limits w' = Limits w /\
  forall q, q ∉ ps -> files w' !! q = files w !! q.

(** The directory [dir] can be opened and read. *)
Definition readable_dir (w : World) (dir : string) : Prop :=
  open_fault (faults w) dir = None /\ read_fault (faults w) dir = None.

(** [name] is the entry of some stored path in [dir]. *)
Definition listed (dir : string) (w : World) (name : string) : Prop :=
  exists p, is_Some (files w !! p) /\ entry_of dir p = Some name.

(** *** The world and the file primitives *)

Lemma set_files_id w : set_files w (files w) = w.
Proof. by destruct w. Qed.

Lemma set_files_twice w fs1 fs2 : set_files (set_files w fs1) fs2 = set_files w fs2.
Proof. done. Qed.

Lemma write_at_end old c : write_at (length old) c old = old ++ c.
Proof.
  unfold write_at.
  rewrite firstn_all, Nat.sub_diag, drop_ge by (simpl; lia).
  simpl. by rewrite app_nil_r.
Qed.

(** Writing through a handle that sits at the end of its file appends a
    prefix of the chunk, and the whole chunk when no error is returned. *)
Lemma file_Write_append dst c w old n err dst' w' :
  files w !! f_path dst = Some old ->
  f_off dst = length old ->
  file_Write dst c w = ((n, err), (dst', w')) ->
  exists c', n = Z.of_nat (length c') /\
    w' = set_files w (<[f_path dst := old ++ c']> (files w)) /\
    f_path dst' = f_path dst /\ f_off dst' = length (old ++ c') /\
    (err = None -> c' = c) /\
    (write_fault (faults w) (f_path dst) = None -> err = None) /\
    c' `prefix_of` c.
Proof.
  intros Hold Hoff. unfold file_Write. rewrite Hold, Hoff.
  destruct (write_fault (faults w) (f_path dst)) as [[cap e]|]; intros [= <- <- <- <-].
  - exists (take (cap - length old) c). rewrite write_at_end, length_app.
    split_and!; try done.
    + case_decide; [|done]. intros _. by rewrite take_ge.
    + exists (drop (cap - length old) c). by rewrite take_drop.
  - exists c. by rewrite write_at_end, length_app.
Qed.

(** [io.Copy] through the tee reader, started at the end of the
    destination: the destination grows by the bytes written, the count
    returned is their number, and when no error is returned the reader
    ended cleanly and both the file and the hasher received the whole
    content. *)
Lemma io_Copy_spec chunks :
  forall dst r_end hasher written w old n err dst' hasher' w',
    files w !! f_path dst = Some old ->
    f_off dst = length old ->
    io_Copy dst chunks r_end hasher written w = ((n, err), (dst', hasher', w')) ->
    exists new,
      w' = set_files w (<[f_path dst := old ++ new]> (files w)) /\
      f_path dst' = f_path dst /\ f_off dst' = length (old ++ new) /\
      n = written + Z.of_nat (length new) /\
      (err = None ->
       new = concat chunks /\ hasher' = hasher ++ concat chunks /\ r_end = EOF) /\
      (write_fault (faults w) (f_path dst) = None ->
       new = concat chunks /\ err = copy_error r_end) /\
      new `prefix_of` concat chunks.
Proof.
  induction chunks as [|c chunks IH]; intros dst r_end hasher written w old n err dst'
    hasher' w' Hold Hoff; simpl.
  - intros [= <- <- <- <- <-]. exists [].
    rewrite app_nil_r, insert_id, set_files_id by done.
    split_and!; try done; simpl; try lia.
    intros Hend. rewrite app_nil_r. by destruct r_end.
  - destruct c as [|x c].
    { rewrite app_nil_r. intros H. eapply IH in H; eauto. }
    destruct (file_Write dst (x :: c) w) as [[nw ew] [dst1 w1]] eqn:Hw.
    eapply file_Write_append in Hw as (c' & -> & -> & Hp1 & Ho1 & Hfull & Hnf & Hpre); eauto.
    destruct ew as [e|].
    + intros [= <- <- <- <- <-]. exists c'. split_and!; try done.
      * intros Hwf. by specialize (Hnf Hwf).
      * by apply prefix_app_r.
    + specialize (Hfull eq_refl) as ->.
      intros H. eapply IH in H as (new & -> & Hp & Ho & -> & Hok & Hwf & Hpre').
      2: { simpl. rewrite Hp1. apply lookup_insert_eq. }
      2: done.
      exists ((x :: c) ++ new). simpl files. rewrite Hp1, insert_insert_eq.
      rewrite Hp, Ho, Hp1, !length_app, <- !app_assoc.
      split_and!; try done; try lia.
      * intros H. destruct (Hok H) as (-> & -> & ->). by rewrite <- app_assoc.
      * intros H. simpl in Hwf. rewrite Hp1 in Hwf. by destruct (Hwf H) as (-> & ->).
      * by apply prefix_app.
Qed.

Lemma os_Remove_present p w c :
  files w !! p = Some c ->
  remove_fault (faults w) p = None ->
  os_Remove p w = (None, without_file w p).
Proof. intros Hc Hr. unfold os_Remove. by rewrite Hc, Hr. Qed.

Lemma os_Remove_absent p w :
  files w !! p = None -> os_Remove p w = (Some (PathError ENOENT), w).
Proof. intros Hc. unfold os_Remove. by rewrite Hc. Qed.

(** Whatever [os.Remove] answers, only the named file can have gone. *)
Lemma os_Remove_world p w :
  (os_Remove p w).2 = w \/ (os_Remove p w).2 = without_file w p.
Proof.
  unfold os_Remove. destruct (files w !! p); [|by left].
  destruct (remove_fault (faults w) p); [by left | by right].
Qed.

Lemma os_Remove_gone p w :
  remove_fault (faults w) p = None -> files (os_Remove p w).2 !! p = None.
Proof.
  intros Hr. unfold os_Remove. destruct (files w !! p) eqn:Hc; [|done].
  rewrite Hr. simpl. apply lookup_delete_eq.
Qed.

Lemma without_with_file w p c : without_file (with_file w p c) p = without_file w p.
Proof. unfold without_file, with_file. simpl. by rewrite delete_insert_eq. Qed.

Lemma with_with_file w p c c' : with_file (with_file w p c) p c' = with_file w p c'.
Proof. unfold with_file. simpl. by rewrite insert_insert_eq. Qed.

(** *** [writeMetadata] *)

(** The three ways [writeMetadata] ends: the sidecar holds the encoded
    record; the sidecar could not be created and nothing changed; or the
    encoder's write was cut short and the partial sidecar was handed to
    [os.Remove]. *)
Lemma writeMetadata_cases b key metadata w err w' :
  writeMetadata b key metadata w = (err, w') ->
  let mp := path_Join (metaPath b) key in
  (err = None /\ create_fault (faults w) mp = None /\
   w' = with_file w mp (json_Marshal (mjson_of metadata))) \/
  (exists e, err = Some (PathError (Fault e)) /\
     create_fault (faults w) mp = Some e /\ w' = w) \/
  (exists e part, err = Some e /\ create_fault (faults w) mp = None /\
     write_fault (faults w) mp <> None /\
     w' = (os_Remove mp (with_file w mp part)).2).
Proof.
  intros H mp. unfold writeMetadata, os_Create, json_Encode in H. fold mp in H.
  destruct (create_fault (faults w) mp) as [e|] eqn:Hc.
  { injection H as <- <-. right; left. by exists e. }
  destruct (file_Write _ _ _) as [[n ew] [dst1 w1]] eqn:Hw.
  eapply (file_Write_append _ _ _ []) in Hw as (c' & _ & -> & _ & _ & Hfull & Hnf & _);
    [|apply lookup_insert_eq|done].
  simpl in H. rewrite set_files_twice, insert_insert_eq in H.
  fold (with_file w mp c') in H.
  destruct ew as [e|].
  - right; right. exists e, c'.
    destruct (os_Remove mp (with_file w mp c')) as [x w2] eqn:Hr.
    injection H as <- <-. split_and!; try done.
    intros Hwf. by specialize (Hnf Hwf).
  - left. injection H as <- <-. by rewrite (Hfull eq_refl).
Qed.

(** *** [Put] *)

Lemma io_Copy_fresh fp chunks r_end w n err dst hasher w' :
  io_Copy (mkFile fp 0) chunks r_end [] 0 (with_file w fp []) = ((n, err), (dst, hasher, w')) ->
  exists new,
    w' = with_file w fp new /\ f_path dst = fp /\ n = Z.of_nat (length new) /\
    (err = None -> new = concat chunks /\ hasher = concat chunks /\ r_end = EOF) /\
    (write_fault (faults w) fp = None ->
     new = concat chunks /\ err = copy_error r_end) /\
    new `prefix_of` concat chunks.
Proof.
  intros H.
  eapply (io_Copy_spec _ _ _ _ _ _ []) in H as (new & -> & Hp & _ & -> & Hok & Hwf & Hpre);
    [|apply lookup_insert_eq|done].
  exists new. unfold with_file. simpl. rewrite set_files_twice, insert_insert_eq.
  split_and!; try done; lia.
Qed.

(** The exits of [Put], in the order of the source.  [new] is what
    [io.Copy] wrote to the data file before it returned. *)
Lemma Put_cases b key r expiryTime deleteKey accessKey srcIp originalName w res w' :
  Put b key r expiryTime deleteKey accessKey srcIp originalName w = (res, w') ->
  let fp := path_Join (filesPath b) key in
  (exists e, create_fault (faults w) fp = Some e /\
     res = (zeroMetadata, Some (PathError (Fault e))) /\ w' = w) \/
  (create_fault (faults w) fp = None /\
   exists bytes err dst hasher new,
     io_Copy (mkFile fp 0) (r_chunks r) (r_end r) [] 0 (with_file w fp [])
       = ((bytes, err), (dst, hasher, with_file w fp new)) /\
     bytes = Z.of_nat (length new) /\
     (err = None -> new = r_content r /\ r_end r = EOF) /\
     (write_fault (faults w) fp = None ->
      new = r_content r /\ err = copy_error (r_end r)) /\
     new `prefix_of` r_content r /\
     ((exists e, res = (zeroMetadata, Some e) /\
         w' = (os_Remove fp (with_file w fp new)).2 /\
         ((new = [] /\ e = FileEmptyError) \/
          (new <> [] /\ err = Some e) \/
          (new <> [] /\ err = None /\ bytes >= MaxSize (Limits w) /\
             e = FileTooLargeError) \/
          (new <> [] /\ err = None /\ bytes < MaxSize (Limits w) /\
             exists f, read_fault (faults w) fp = Some f /\ e = PathError (Fault f)))) \/
      (new <> [] /\ err = None /\ bytes < MaxSize (Limits w) /\
       read_fault (faults w) fp = None /\
       exists werr w3,
         writeMetadata b key
           (assembled new expiryTime deleteKey accessKey srcIp originalName w)
           (with_file w fp new) = (werr, w3) /\
         res = (assembled new expiryTime deleteKey accessKey srcIp originalName w, werr) /\
         w' = match werr with Some _ => (os_Remove fp w3).2 | None => w3 end))).
Proof.
  intros H fp. unfold Put, os_Create in H. fold fp in H.
  destruct (create_fault (faults w) fp) as [e|] eqn:Hc.
  { injection H as <- <-. left. by exists e. }
  right. split; [done|].
  fold (with_file w fp []) in H.
  destruct (io_Copy _ _ _ _ _ _) as [[bytes err] [[dst hasher] w2]] eqn:Hcopy.
  destruct (io_Copy_fresh _ _ _ _ _ _ _ _ _ Hcopy) as (new & -> & Hp & -> & Hok & Hwf & Hpre).
  exists (Z.of_nat (length new)), err, dst, hasher, new.
  split_and!;
    [done|done|by intros He; destruct (Hok He) as (-> & _ & ->)|exact Hwf|exact Hpre|].
  change (Limits (with_file w fp new)) with (Limits w) in H.
  change (fileExpiry expiryTime (Z.of_nat (length new)) (with_file w fp new))
    with (fileExpiry expiryTime (Z.of_nat (length new)) w) in H.
  revert H.
  destruct (Z.eqb_spec (Z.of_nat (length new)) 0) as [H0|H0].
  { destruct (os_Remove _ _) as [x w3]. intros [= <- <-].
    left. exists FileEmptyError. split_and!; [done|done|]. left. by destruct new. }
  assert (new <> []) as Hne by (by intros ->).
  destruct err as [e|].
  { destruct (os_Remove _ _) as [x w3]. intros [= <- <-].
    left. exists e. split_and!; [done|done|]. right; left. done. }
  destruct (Hok eq_refl) as (Hnew & -> & Hend).
  destruct (Z.geb_spec (Z.of_nat (length new)) (MaxSize (Limits w))) as [Hsz|Hsz].
  { destruct (os_Remove _ _) as [x w3]. intros [= <- <-].
    left. exists FileTooLargeError.
    split_and!; [done|done|]. right; right; left. split_and!; try done. lia. }
  unfold file_Read, io_ReadAll, file_Seek. simpl f_path. simpl f_off.
  rewrite Hp. unfold with_file at 1 2. simpl files. rewrite lookup_insert_eq.
  simpl faults.
  destruct (read_fault (faults w) fp) as [f|] eqn:Hr.
  { destruct (os_Remove _ _) as [x w3]. intros [= <- <-].
    left. exists (PathError (Fault f)).
    split_and!; [done|done|]. do 3 right. split_and!; try done. by exists f. }
  change (drop 0 new) with new.
  destruct (take 512 new) as [|y l] eqn:Htake.
  { destruct new; [done | discriminate Htake]. }
  rewrite <- Htake, <- Hnew. simpl f_path. rewrite lookup_insert_eq, Hr.
  change (drop 0 new) with new.
  fold (assembled new expiryTime deleteKey accessKey srcIp originalName w).
  destruct (writeMetadata b key _ _) as [werr w3] eqn:Hwm.
  intros Hres. right. split_and!; try done. exists werr, w3. split; [done|].
  destruct werr as [e|].
  - destruct (os_Remove fp w3) as [x w4]. by injection Hres as <- <-.
  - by injection Hres as <- <-.
Qed.

(** A successful [Put] copied the whole stream, which ended cleanly, was
    not empty and stayed under the size limit; it returns the assembled
    record and leaves the data file and the encoded sidecar. *)
Lemma Put_success b key r expiryTime deleteKey accessKey srcIp originalName w m w' :
  Put b key r expiryTime deleteKey accessKey srcIp originalName w = ((m, None), w') ->
  r_end r = EOF /\ r_content r <> [] /\
  Z.of_nat (length (r_content r)) < MaxSize (Limits w) /\
  m = assembled (r_content r) expiryTime deleteKey accessKey srcIp originalName w /\
  w' = with_file (with_file w (path_Join (filesPath b) key) (r_content r))
         (path_Join (metaPath b) key) (json_Marshal (mjson_of m)).
Proof.
  intros H. apply Put_cases in H as [(e & _ & [=] & _)|(_ & H)].
  destruct H as (bytes & err & dst & hasher & new & _ & -> & Hok & _ & _ & H).
  destruct H as [(e & [=] & _)|(Hne & -> & Hsz & _ & werr & w3 & Hwm & [= -> <-] & ->)].
  destruct (Hok eq_refl) as (-> & ->).
  apply writeMetadata_cases in Hwm as [(_ & _ & ->)|[(e & [=] & _)|(e & part & [=] & _)]].
  done.
Qed.

(** *** [Head] *)

Lemma Head_decoded b key w c mjson :
  files w !! path_Join (metaPath b) key = Some c ->
  open_fault (faults w) (path_Join (metaPath b) key) = None ->
  read_fault (faults w) (path_Join (metaPath b) key) = None ->
  json_Unmarshal c = Some mjson ->
  Head b key w = (decoded mjson, None).
Proof.
  intros Hc Ho Hr Hj. unfold Head, os_Open, json_Decode, io_ReadAll.
  rewrite Hc, Ho. simpl. rewrite Hc, Hr. change (drop 0 c) with c. by rewrite Hj.
Qed.

(** *** The expiry policy *)


(** The conversion of the configured seconds is exact as long as the
    product fits in an [int64]. *)
Lemma maxDurationTime_exact w :
  0 <= MaxDurationTime (Limits w) * time_Second < 2^63 ->
  maxDurationTime w = MaxDurationTime (Limits w) * time_Second.
Proof.
  intros H. unfold maxDurationTime, wrap64, time_Second in *.
  rewrite (Z.mod_small (MaxDurationTime (Limits w) + 2 ^ 63)) by lia.
  replace (MaxDurationTime (Limits w) + 2 ^ 63 - 2 ^ 63) with (MaxDurationTime (Limits w)) by lia.
  rewrite Z.mod_small by lia. lia.
Qed.

(** *** The claims *)

(** C1. For every successful [Put], the metadata it returns, and the
    metadata a subsequent [Head] of the key reads back from the sidecar,
    carry the hex-encoded SHA-256 of exactly the bytes of the content and
    the byte length of the content; the data file holds those bytes.
    ([Head] is taken on a readable sidecar, with a codec that reads back
    the record it wrote.) *)
Theorem Put_sha256sum_and_size
    b key r expiryTime deleteKey accessKey srcIp originalName w m w' :
  Put b key r expiryTime deleteKey accessKey srcIp originalName w = ((m, None), w') ->
  json_Unmarshal (json_Marshal (mjson_of m)) = Some (mjson_of m) ->
  open_fault (faults w) (path_Join (metaPath b) key) = None ->
  read_fault (faults w) (path_Join (metaPath b) key) = None ->
  backends.Sha256sum m = hex_EncodeToString (sha256_Sum (r_content r)) /\
  backends.Size m = Z.of_nat (length (r_content r)) /\
  (exists m', Head b key w' = (m', None) /\
     backends.Sha256sum m' = hex_EncodeToString (sha256_Sum (r_content r)) /\
     backends.Size m' = Z.of_nat (length (r_content r))) /\
  (path_Join (metaPath b) key <> path_Join (filesPath b) key ->
   files w' !! path_Join (filesPath b) key = Some (r_content r)).
Proof.
  intros HPut Hcodec Hopen Hread.
  apply Put_success in HPut as (_ & _ & _ & Hm & ->).
  split_and!; [by rewrite Hm | by rewrite Hm | |].
  - exists (decoded (mjson_of m)). split.
    + eapply Head_decoded; eauto. apply lookup_insert_eq.
    + by rewrite Hm.
  - intros Hne. simpl. rewrite lookup_insert_ne by done. apply lookup_insert_eq.
Qed.


(** C3 (amended). A successful [PutMetadata(key, m)] followed by [Head(key)]
    returns a Metadata equal to [m] in deleteKey, accessKey, sha256sum,
    mimetype, size, originalName and archiveFiles, and whose expiry is the
    expiry of [m] truncated to whole seconds, hence equal to it when [m]'s
    expiry is a whole number of seconds.  ([Head] is taken on a readable
    sidecar, with a codec that reads back the record it wrote.) *)
Theorem PutMetadata_Head_roundtrip b key m w w' :
  PutMetadata b key m w = (None, w') ->
  json_Unmarshal (json_Marshal (mjson_of m)) = Some (mjson_of m) ->
  open_fault (faults w) (path_Join (metaPath b) key) = None ->
  read_fault (faults w) (path_Join (metaPath b) key) = None ->
  exists m', Head b key w' = (m', None) /\
    backends.DeleteKey m' = backends.DeleteKey m /\
    backends.AccessKey m' = backends.AccessKey m /\
    backends.Sha256sum m' = backends.Sha256sum m /\
    backends.Mimetype m' = backends.Mimetype m /\
    backends.Size m' = backends.Size m /\
    backends.OriginalName m' = backends.OriginalName m /\
    backends.ArchiveFiles m' = backends.ArchiveFiles m /\
    backends.Expiry m' = time_Unix (Time_Unix (backends.Expiry m)) 0 /\
    (unixNano (backends.Expiry m) mod time_Second = 0 ->
     backends.Expiry m' = backends.Expiry m).
Proof.
  unfold PutMetadata. intros HPut Hcodec Hopen Hread.
  apply writeMetadata_cases in HPut as [(_ & _ & ->)|[(e & [=] & _)|(e & part & [=] & _)]].
  exists (decoded (mjson_of m)). split.
  { eapply Head_decoded; eauto. apply lookup_insert_eq. }
  split_and!; try done.
  intros Hwhole. simpl. destruct (backends.Expiry m) as [n]. simpl in *.
  unfold time_Unix, Time_Unix. simpl. f_equal.
  pose proof (Z_div_mod_eq_full n time_Second). lia.
Qed.

(** *** Cleaning up after a failed [Put] *)

Lemma os_Remove_faults p w : faults (os_Remove p w).2 = faults w.
Proof. by destruct (os_Remove_world p w) as [-> | ->]. Qed.

(** Removing never brings a file into being. *)
Lemma os_Remove_keeps_absent p q w :
  files w !! q = None -> files (os_Remove p w).2 !! q = None.
Proof.
  intros Hq. destruct (os_Remove_world p w) as [-> | ->]; [done|].
  simpl. rewrite lookup_delete. by case_decide.
Qed.

(** A sidecar that was created but could not be encoded is removed. *)
Lemma writeMetadata_encode_failure_removes b key metadata w e w' :
  writeMetadata b key metadata w = (Some e, w') ->
  create_fault (faults w) (path_Join (metaPath b) key) = None ->
  remove_fault (faults w) (path_Join (metaPath b) key) = None ->
  files w' !! path_Join (metaPath b) key = None.
Proof.
  intros H Hc Hr.
  apply writeMetadata_cases in H as [([=] & _)|[(f & _ & Hc' & _)|(e' & part & _ & _ & _ & ->)]].
  - congruence.
  - by apply os_Remove_gone.
Qed.

Lemma writeMetadata_faults b key metadata w err w' :
  writeMetadata b key metadata w = (err, w') -> faults w' = faults w.
Proof.
  intros H.
  apply writeMetadata_cases in H as [(_ & _ & ->)|[(f & _ & _ & ->)|(e' & part & _ & _ & _ & ->)]];
    try done.
  by rewrite os_Remove_faults.
Qed.

(** A failing [writeMetadata] leaves no sidecar where there was none. *)
Lemma writeMetadata_failure_keeps_absent b key metadata w e w' q :
  writeMetadata b key metadata w = (Some e, w') ->
  remove_fault (faults w) (path_Join (metaPath b) key) = None ->
  files w !! q = None -> files w' !! q = None.
Proof.
  intros H Hr Hq.
  apply writeMetadata_cases in H as [([=] & _)|[(f & _ & _ & ->)|(e' & part & _ & _ & _ & ->)]];
    [done|].
  destruct (decide (q = path_Join (metaPath b) key)) as [->|Hne].
  - by apply os_Remove_gone.
  - apply os_Remove_keeps_absent. simpl. by rewrite lookup_insert_ne.
Qed.

(** C4 (amended). Whenever [Put] returns an error at an exit after the
    data file is created (zero-byte input, copy error, size limit,
    mimetype-read failure, metadata-write failure), the data file has been
    removed; no data file remains either when the creation itself failed
    on a key that had none.  No metadata file remains provided the key
    had none before the call, and a sidecar that was created but failed to
    encode is removed.  (Removals are taken not to fail: [Put] ignores
    their result.) *)
Theorem Put_error_cleanup
    b key r expiryTime deleteKey accessKey srcIp originalName w m err w' :
  Put b key r expiryTime deleteKey accessKey srcIp originalName w = ((m, Some err), w') ->
  remove_fault (faults w) (path_Join (filesPath b) key) = None ->
  remove_fault (faults w) (path_Join (metaPath b) key) = None ->
  (create_fault (faults w) (path_Join (filesPath b) key) = None \/
   files w !! path_Join (filesPath b) key = None ->
   files w' !! path_Join (filesPath b) key = None) /\
  (files w !! path_Join (metaPath b) key = None ->
   files w' !! path_Join (metaPath b) key = None) /\
  (forall metadata w0 e w1,
     writeMetadata b key metadata w0 = (Some e, w1) ->
     create_fault (faults w0) (path_Join (metaPath b) key) = None ->
     remove_fault (faults w0) (path_Join (metaPath b) key) = None ->
     files w1 !! path_Join (metaPath b) key = None).
Proof.
  intros HPut Hrf Hrm.
  split_and!; [| |intros; by eapply writeMetadata_encode_failure_removes].
  - intros Hfresh.
    apply Put_cases in HPut as [(e & Hc & _ & ->)|(_ & H)].
    { destruct Hfresh; congruence. }
    destruct H as (bytes & cerr & dst & hasher & new & _ & _ & _ & _ & _ & H).
    destruct H as [(e & _ & -> & _)|(_ & _ & _ & _ & werr & w3 & Hwm & [= _ <-] & ->)].
    + by apply os_Remove_gone.
    + apply os_Remove_gone. by rewrite (writeMetadata_faults _ _ _ _ _ _ Hwm).
  - intros Hfresh.
    apply Put_cases in HPut as [(e & Hc & _ & ->)|(_ & H)]; [done|].
    destruct H as (bytes & cerr & dst & hasher & new & _ & _ & _ & _ & _ & H).
    assert (files (os_Remove (path_Join (filesPath b) key)
              (with_file w (path_Join (filesPath b) key) new)).2
              !! path_Join (metaPath b) key = None) as Hearly.
    { destruct (decide (path_Join (metaPath b) key = path_Join (filesPath b) key)) as [->|Hne].
      - by apply os_Remove_gone.
      - apply os_Remove_keeps_absent. simpl. by rewrite lookup_insert_ne. }
    destruct H as [(e & _ & -> & _)|(_ & _ & _ & _ & werr & w3 & Hwm & [= _ <-] & ->)];
      [done|].
    apply writeMetadata_cases in Hwm as [([=] & _)|[(f & _ & _ & ->)|(e' & part & _ & _ & _ & ->)]];
      [done|].
    apply os_Remove_keeps_absent. by apply os_Remove_gone.
Qed.

(** C5. After the copy, [Put] rejects the stream in this order: zero
    bytes copied gives [FileEmptyError]; otherwise an error of the copy
    is propagated; otherwise a byte count at or above the configured
    maximum gives [FileTooLargeError].  In each case the data file is
    removed and nothing else changes: no metadata is persisted.
    (The removal is taken not to fail.) *)
Theorem Put_rejects_in_order
    b key r expiryTime deleteKey accessKey srcIp originalName w bytes err st :
  create_fault (faults w) (path_Join (filesPath b) key) = None ->
  io_Copy (mkFile (path_Join (filesPath b) key) 0) (r_chunks r) (r_end r) [] 0
    (with_file w (path_Join (filesPath b) key) []) = ((bytes, err), st) ->
  remove_fault (faults w) (path_Join (filesPath b) key) = None ->
  let rejected e :=
    Put b key r expiryTime deleteKey accessKey srcIp originalName w
    = ((zeroMetadata, Some e), without_file w (path_Join (filesPath b) key)) in
  (bytes = 0 -> rejected FileEmptyError) /\
  (bytes <> 0 -> forall e, err = Some e -> rejected e) /\
  (bytes <> 0 -> err = None -> bytes >= MaxSize (Limits w) -> rejected FileTooLargeError) /\
  files (without_file w (path_Join (filesPath b) key)) !! path_Join (filesPath b) key = None /\
  (path_Join (metaPath b) key <> path_Join (filesPath b) key ->
   files (without_file w (path_Join (filesPath b) key)) !! path_Join (metaPath b) key
   = files w !! path_Join (metaPath b) key).
Proof.
  intros Hc Hcopy Hrf rejected. unfold rejected.
  destruct (Put b key r expiryTime deleteKey accessKey srcIp originalName w)
    as [res w'] eqn:HPut.
  apply Put_cases in HPut as [(e & Hc' & _)|(_ & H)]; [congruence|].
  destruct H as (bytes' & err' & dst & hasher & new & Hcopy' & Hlen & _ & _ & _ & H).
  rewrite Hcopy in Hcopy'. injection Hcopy' as -> -> _.
  rewrite (os_Remove_present _ _ new) in H by (by try apply lookup_insert_eq).
  simpl in H. rewrite without_with_file in H.
  split_and!.
  - intros H0.
    destruct H as [(e & -> & -> & [(_ & ->)|[(Hne & _)|[(Hne & _)|(Hne & _)]]])|(Hne & _)];
      try done; destruct new; try done; simpl in *; lia.
  - intros H0 e ->.
    destruct H as [(e' & -> & -> & [(-> & _)|[(_ & [= ->])|[(_ & [=] & _)|(_ & [=] & _)]]])|(_ & [=] & _)];
      done.
  - intros H0 -> Hsz.
    destruct H as [(e' & -> & -> & [(-> & _)|[(_ & [=])|[(_ & _ & _ & ->)|(_ & _ & Hlt & _)]]])|(_ & _ & Hlt & _)];
      try done; lia.
  - simpl. apply lookup_delete_eq.
  - intros Hne. simpl. by rewrite lookup_delete_ne.
Qed.

(** C6, corrected.  [Head] fails with [NotFoundErr] exactly when opening
    the sidecar reports that the file does not exist.  That happens only
    when the sidecar is absent, and always when it is absent and its
    path resolves.  [Head] fails with [BadMetadata] when the open fails
    in any other way, which includes an absent sidecar whose path cannot
    be resolved, and when the sidecar is present but cannot be opened,
    cannot be read or does not parse; it fails in no third way.
    Whenever [Head] fails, [Get] returns that error with the nil stream,
    so [NotFoundErr] with the nil stream on a key without a sidecar whose
    path resolves.  When [Head] succeeds but the data file cannot be
    opened, [Get] returns the error of that open, which is neither
    [NotFoundErr] nor [BadMetadata], and a stream that is not nil: it
    holds the nil file of the failed open. *)
Theorem Head_Get_error_kinds b key w :
  ((Head b key w).2 = Some NotFoundErr <->
   exists e, os_Open (path_Join (metaPath b) key) w = inr e /\
             os_IsNotExist e = true) /\
  ((Head b key w).2 = Some NotFoundErr ->
   files w !! path_Join (metaPath b) key = None) /\
  (files w !! path_Join (metaPath b) key = None ->
   open_fault (faults w) (path_Join (metaPath b) key) = None \/
   create_fault (faults w) (path_Join (metaPath b) key) = None ->
   Head b key w = (zeroMetadata, Some NotFoundErr) /\
   Get b key w = (zeroMetadata, nilStream, Some NotFoundErr)) /\
  (forall e, os_Open (path_Join (metaPath b) key) w = inr e ->
     os_IsNotExist e = false ->
     Head b key w = (zeroMetadata, Some BadMetadata)) /\
  (forall e1 e2, files w !! path_Join (metaPath b) key = None ->
     open_fault (faults w) (path_Join (metaPath b) key) = Some e1 ->
     create_fault (faults w) (path_Join (metaPath b) key) = Some e2 ->
     Head b key w = (zeroMetadata, Some BadMetadata)) /\
  (forall c, files w !! path_Join (metaPath b) key = Some c ->
     open_fault (faults w) (path_Join (metaPath b) key) <> None \/
     read_fault (faults w) (path_Join (metaPath b) key) <> None \/
     json_Unmarshal c = None ->
     Head b key w = (zeroMetadata, Some BadMetadata)) /\
  (forall m e, Head b key w = (m, Some e) ->
     m = zeroMetadata /\ (e = NotFoundErr \/ e = BadMetadata) /\
     Get b key w = (m, nilStream, Some e)) /\
  (forall m e, Head b key w = (m, None) ->
     os_Open (path_Join (filesPath b) key) w = inr e ->
     Get b key w = (m, fileStream None, Some e) /\
     e <> NotFoundErr /\ e <> BadMetadata).
Proof.
  assert (forall p e, os_Open p w = inr e -> exists n, e = PathError n) as Hpath.
  { intros p e. unfold os_Open, open_absent.
    destruct (files w !! p); destruct (open_fault _ _);
      try destruct (create_fault _ _); intros [= <-]; eauto. }
  assert (forall e, os_Open (path_Join (metaPath b) key) w = inr e ->
            Head b key w
            = (zeroMetadata,
               Some (if os_IsNotExist e then NotFoundErr else BadMetadata)))
    as Hfail.
  { intros e He. unfold Head. rewrite He. by destruct (os_IsNotExist e). }
  assert (forall f, os_Open (path_Join (metaPath b) key) w = inl f ->
            (Head b key w).2 <> Some NotFoundErr) as Hopened.
  { intros f Hf. unfold Head. rewrite Hf. by destruct (json_Decode f w). }
  assert (forall c, files w !! path_Join (metaPath b) key = Some c ->
            (Head b key w).2 <> Some NotFoundErr) as Hpresent.
  { intros c Hc.
    destruct (os_Open (path_Join (metaPath b) key) w) as [f|e] eqn:Hopen;
      [by eapply Hopened|].
    rewrite (Hfail e eq_refl). unfold os_Open in Hopen. rewrite Hc in Hopen.
    destruct (open_fault _ _); by simplify_eq. }
  assert (files w !! path_Join (metaPath b) key = None ->
          open_fault (faults w) (path_Join (metaPath b) key) = None \/
          create_fault (faults w) (path_Join (metaPath b) key) = None ->
          Head b key w = (zeroMetadata, Some NotFoundErr)) as Habsent.
  { intros Hc Hres. rewrite (Hfail (PathError ENOENT)); [done|].
    unfold os_Open, open_absent. rewrite Hc.
    destruct Hres as [->| ->]; [done|]. by destruct (open_fault _ _). }
  split_and!.
  - split.
    + intros H.
      destruct (os_Open (path_Join (metaPath b) key) w) as [f|e] eqn:Hopen;
        [by destruct (Hopened f eq_refl)|].
      exists e. split; [done|]. rewrite (Hfail e eq_refl) in H.
      by destruct (os_IsNotExist e).
    + intros (e & Hopen & He). by rewrite (Hfail e Hopen), He.
  - intros H. destruct (files w !! _) as [c|] eqn:Hc; [|done].
    by destruct (Hpresent c eq_refl).
  - intros Hc Hres. split; [by apply Habsent|].
    unfold Get. by rewrite (Habsent Hc Hres).
  - intros e Hopen He. by rewrite (Hfail e Hopen), He.
  - intros e1 e2 Hc Ho Hcr. rewrite (Hfail (PathError (Fault e1))); [done|].
    unfold os_Open, open_absent. by rewrite Hc, Ho, Hcr.
  - intros c Hc Hbad. unfold Head, os_Open, json_Decode, io_ReadAll. rewrite Hc.
    destruct (open_fault _ _); simpl; [done|]. rewrite Hc.
    destruct (read_fault _ _); [done|]. change (drop 0 c) with c.
    destruct (json_Unmarshal c); [|done]. by destruct Hbad as [?|[?|?]].
  - intros m e HHead. unfold Get. rewrite HHead. split_and!; [| |done].
    + unfold Head in HHead.
      destruct (os_Open _ _) as [f|e']; [destruct (json_Decode f w)|];
        [| |destruct (os_IsNotExist e')]; by simplify_eq.
    + unfold Head in HHead.
      destruct (os_Open _ _) as [f|e']; [destruct (json_Decode f w)|];
        [| |destruct (os_IsNotExist e')]; simplify_eq; auto.
  - intros m e HHead Hopen. unfold Get. rewrite HHead, Hopen. split; [done|].
    destruct (Hpath _ _ Hopen) as [n ->]. done.
Qed.

(** C7. [Delete] removes the data file first and the metadata file
    second.  If removing the data file fails, that error is returned and
    the world is unchanged: the metadata removal is not attempted.  After
    a successful [Delete] both files are gone, [Exists] reports false,
    and a second [Delete] of the key returns an error. *)
Theorem Delete_data_then_metadata b key w :
  (forall e, (os_Remove (path_Join (filesPath b) key) w).1 = Some e ->
     Delete b key w = (Some e, w)) /\
  ((os_Remove (path_Join (filesPath b) key) w).1 = None ->
   Delete b key w
   = os_Remove (path_Join (metaPath b) key)
       (without_file w (path_Join (filesPath b) key))) /\
  (forall w', Delete b key w = (None, w') ->
     w' = without_file (without_file w (path_Join (filesPath b) key))
            (path_Join (metaPath b) key) /\
     (Exists b key w').1 = false /\
     exists e, Delete b key w' = (Some e, w')).
Proof.
  assert (forall e, (os_Remove (path_Join (filesPath b) key) w).1 = Some e ->
            (os_Remove (path_Join (filesPath b) key) w).2 = w) as Hfail.
  { intros e. unfold os_Remove. destruct (files w !! _); [|done].
    by destruct (remove_fault _ _). }
  assert ((os_Remove (path_Join (filesPath b) key) w).1 = None ->
            (os_Remove (path_Join (filesPath b) key) w).2
            = without_file w (path_Join (filesPath b) key)) as Hok.
  { unfold os_Remove. destruct (files w !! _); [|done].
    by destruct (remove_fault _ _). }
  split_and!.
  - intros e He. specialize (Hfail e He). unfold Delete.
    destruct (os_Remove _ w) as [err w1]. simpl in *. by subst.
  - intros He. specialize (Hok He). unfold Delete.
    destruct (os_Remove _ w) as [err w1]. simpl in *. by subst.
  - intros w' HDel. unfold Delete in HDel.
    destruct (os_Remove _ w) as [[e|] w1] eqn:H1; [by injection HDel|].
    specialize (Hok eq_refl). simpl in Hok. subst w1.
    assert (w' = without_file (without_file w (path_Join (filesPath b) key))
                   (path_Join (metaPath b) key)) as ->.
    { unfold os_Remove in HDel. destruct (files _ !! _); [|done].
      destruct (remove_fault _ _); [done|]. by injection HDel. }
    assert (files (without_file (without_file w (path_Join (filesPath b) key))
              (path_Join (metaPath b) key)) !! path_Join (filesPath b) key = None) as Hgone.
    { simpl. rewrite lookup_delete. case_decide; [done|]. apply lookup_delete_eq. }
    split_and!; [done| |].
    + unfold Exists, os_Stat. by rewrite Hgone.
    + exists (PathError ENOENT). unfold Delete. by rewrite (os_Remove_absent _ _ Hgone).
Qed.

(** C9. [Exists] returns true if and only if the stat of the data file
    succeeds; when the stat fails, its error is returned alongside
    [false], so a failure other than absence is not swallowed; and when
    the data file is absent the boolean is false. *)
Theorem Exists_reports_stat b key w :
  ((Exists b key w).1 = true <->
   exists size, os_Stat (path_Join (filesPath b) key) w = inl size) /\
  (forall err, os_Stat (path_Join (filesPath b) key) w = inr err ->
     Exists b key w = (false, Some err)) /\
  (forall c f, files w !! path_Join (filesPath b) key = Some c ->
     stat_fault (faults w) (path_Join (filesPath b) key) = Some f ->
     Exists b key w = (false, Some (PathError (Fault f)))) /\
  (files w !! path_Join (filesPath b) key = None -> (Exists b key w).1 = false).
Proof.
  unfold Exists. split_and!.
  - destruct (os_Stat _ _) as [size|err]; simpl; split; try done.
    + intros _. by exists size.
    + by intros [size [=]].
  - by intros err ->.
  - intros c f Hc Hf. unfold os_Stat. by rewrite Hc, Hf.
  - intros Hc. unfold os_Stat. by rewrite Hc.
Qed.

(** [Put] succeeds on a clean, non-empty stream under the size limit when
    the environment injects no failure on the key's two paths. *)
Lemma Put_succeeds b key r expiryTime deleteKey accessKey srcIp originalName w :
  unfaulted w (path_Join (filesPath b) key) ->
  unfaulted w (path_Join (metaPath b) key) ->
  r_end r = EOF ->
  r_content r <> [] ->
  Z.of_nat (length (r_content r)) < MaxSize (Limits w) ->
  exists w',
    Put b key r expiryTime deleteKey accessKey srcIp originalName w
    = ((assembled (r_content r) expiryTime deleteKey accessKey srcIp originalName w,
        None), w').
Proof.
  intros (Hcf & _ & _ & _ & Hrf & Hwf) (Hcm & _ & _ & _ & _ & Hwm) Hend Hne Hsz.
  destruct (Put b key r expiryTime deleteKey accessKey srcIp originalName w)
    as [res w'] eqn:HPut.
  exists w'. f_equal.
  apply Put_cases in HPut as [(e & Hc' & _)|(_ & H)]; [simpl in *; congruence|].
  destruct H as (bytes & err & dst & hasher & new & _ & -> & _ & Hfull & _ & H).
  destruct (Hfull Hwf) as (-> & ->). rewrite Hend in H. simpl in H.
  destruct H as [(e & _ & _ & [(? & _)|[(_ & [=])|[(_ & _ & ? & _)|(_ & _ & _ & f & ? & _)]]])
                |(_ & _ & _ & _ & werr & w3 & Hw & -> & _)];
    try done; try lia; try congruence.
  apply writeMetadata_cases in Hw as [(-> & _)|[(f & _ & Hx & _)|(e' & part & _ & _ & Hx & _)]];
    [done|simpl faults in Hx; congruence|simpl faults in Hx; done].
Qed.


(** C10. Neither [Get] nor [ServeFile] looks at the stored access key.
    For a key with a readable data file and a readable sidecar, take two
    sidecar contents that decode to records differing only in
    [AccessKey]: in both worlds [Get] succeeds with the same handle, which
    yields the same bytes, and [ServeFile] succeeds with the same
    response; the metadata [Get] returns differ in [AccessKey] alone. *)
Theorem Get_ServeFile_ignore_accessKey
    b key req w data c1 c2 mjson accessKey' :
  path_Join (metaPath b) key <> path_Join (filesPath b) key ->
  files w !! path_Join (filesPath b) key = Some data ->
  open_fault (faults w) (path_Join (filesPath b) key) = None ->
  read_fault (faults w) (path_Join (filesPath b) key) = None ->
  open_fault (faults w) (path_Join (metaPath b) key) = None ->
  read_fault (faults w) (path_Join (metaPath b) key) = None ->
  json_Unmarshal c1 = Some mjson ->
  json_Unmarshal c2 = Some (with_AccessKey accessKey' mjson) ->
  let w1 := with_file w (path_Join (metaPath b) key) c1 in
  let w2 := with_file w (path_Join (metaPath b) key) c2 in
  exists f,
    Get b key w1 = (decoded mjson, fileStream (Some f), None) /\
    Get b key w2
    = (decoded (with_AccessKey accessKey' mjson), fileStream (Some f), None) /\
    io_ReadAll f w1 = inl data /\
    io_ReadAll f w2 = inl data /\
    ServeFile b key req w1 = (None, Some (http_respond req (inl data))) /\
    ServeFile b key req w2 = (None, Some (http_respond req (inl data))) /\
    decoded (with_AccessKey accessKey' mjson)
    = {| backends.DeleteKey := backends.DeleteKey (decoded mjson);
         backends.AccessKey := accessKey';
         backends.Sha256sum := backends.Sha256sum (decoded mjson);
         backends.Mimetype := backends.Mimetype (decoded mjson);
         backends.Size := backends.Size (decoded mjson);
         backends.Expiry := backends.Expiry (decoded mjson);
         backends.SrcIp := backends.SrcIp (decoded mjson);
         backends.OriginalName := backends.OriginalName (decoded mjson);
         backends.ArchiveFiles := backends.ArchiveFiles (decoded mjson) |}.
Proof.
  intros Hne Hdata Hof Hrf Hom Hrm Hj1 Hj2 w1 w2.
  assert (forall c j, json_Unmarshal c = Some j ->
    let w' := with_file w (path_Join (metaPath b) key) c in
    Get b key w'
    = (decoded j, fileStream (Some (mkFile (path_Join (filesPath b) key) 0)), None) /\
    io_ReadAll (mkFile (path_Join (filesPath b) key) 0) w' = inl data /\
    ServeFile b key req w' = (None, Some (http_respond req (inl data)))) as Hboth.
  { intros c j Hj w'.
    assert (Head b key w' = (decoded j, None)) as HHead.
    { eapply Head_decoded; eauto. apply lookup_insert_eq. }
    assert (files w' !! path_Join (filesPath b) key = Some data) as Hdata'.
    { simpl. by rewrite lookup_insert_ne. }
    assert (io_ReadAll (mkFile (path_Join (filesPath b) key) 0) w' = inl data) as Hread.
    { unfold io_ReadAll. simpl f_path. rewrite Hdata'. simpl faults. by rewrite Hrf. }
    split_and!; [|done|].
    - unfold Get, os_Open. rewrite HHead, Hdata'. simpl faults. by rewrite Hof.
    - unfold ServeFile, http_ServeFile, os_Open. rewrite HHead, Hdata'. simpl faults.
      by rewrite Hof, Hread. }
  exists (mkFile (path_Join (filesPath b) key) 0).
  destruct (Hboth c1 mjson Hj1) as (? & ? & ?).
  destruct (Hboth c2 _ Hj2) as (? & ? & ?).
  split_and!; done.
Qed.

(** [Head] never fills in [SrcIp]: the [srcip] member [writeMetadata]
    stores is decoded and then left behind. *)
Lemma Head_SrcIp_empty b key w m :
  Head b key w = (m, None) -> backends.SrcIp m = EmptyString.
Proof.
  unfold Head. destruct (os_Open _ _) as [f|e].
  - destruct (json_Decode f w); by intros [= <-].
  - by destruct (os_IsNotExist e).
Qed.

(** *** The rejections in terms of the stream *)

(** An empty stream is rejected as empty whatever ended it: the check on
    the byte count comes before the check on the copy error. *)
Lemma Put_empty_stream b key r expiryTime deleteKey accessKey srcIp originalName w :
  r_content r = [] ->
  create_fault (faults w) (path_Join (filesPath b) key) = None ->
  remove_fault (faults w) (path_Join (filesPath b) key) = None ->
  Put b key r expiryTime deleteKey accessKey srcIp originalName w
  = ((zeroMetadata, Some FileEmptyError), without_file w (path_Join (filesPath b) key)).
Proof.
  intros Hempty Hc Hrf.
  destruct (Put b key r expiryTime deleteKey accessKey srcIp originalName w)
    as [res w'] eqn:HPut.
  apply Put_cases in HPut as [(e & Hc' & _)|(_ & H)]; [congruence|].
  destruct H as (bytes & err & dst & hasher & new & _ & _ & _ & _ & Hpre & H).
  rewrite Hempty in Hpre. apply prefix_nil_inv in Hpre as ->.
  rewrite (os_Remove_present _ _ []) in H by (by try apply lookup_insert_eq).
  simpl in H. rewrite without_with_file in H.
  destruct H as [(e & -> & -> & [(_ & ->)|[(? & _)|[(? & _)|(? & _)]]])|(? & _)]; done.
Qed.

(** A clean stream at or above the size limit is rejected as too large. *)
Lemma Put_too_large b key r expiryTime deleteKey accessKey srcIp originalName w :
  r_end r = EOF ->
  r_content r <> [] ->
  Z.of_nat (length (r_content r)) >= MaxSize (Limits w) ->
  create_fault (faults w) (path_Join (filesPath b) key) = None ->
  write_fault (faults w) (path_Join (filesPath b) key) = None ->
  remove_fault (faults w) (path_Join (filesPath b) key) = None ->
  Put b key r expiryTime deleteKey accessKey srcIp originalName w
  = ((zeroMetadata, Some FileTooLargeError),
     without_file w (path_Join (filesPath b) key)).
Proof.
  intros Hend Hne Hsz Hc Hwf Hrf.
  destruct (Put b key r expiryTime deleteKey accessKey srcIp originalName w)
    as [res w'] eqn:HPut.
  apply Put_cases in HPut as [(e & Hc' & _)|(_ & H)]; [congruence|].
  destruct H as (bytes & err & dst & hasher & new & _ & -> & _ & Hfull & _ & H).
  destruct (Hfull Hwf) as (-> & ->). rewrite Hend in H. simpl copy_error in H.
  rewrite (os_Remove_present _ _ (r_content r)) in H by (by try apply lookup_insert_eq).
  simpl in H. rewrite without_with_file in H.
  destruct H as [(e & -> & -> & [(? & _)|[(_ & [=])|[(_ & _ & _ & ->)|(_ & _ & ? & _)]]])
                |(_ & _ & ? & _)]; try done; lia.
Qed.

(** *** What an operation leaves alone *)

Lemma changes_only_refl ps w : changes_only ps w w.
Proof. by repeat split. Qed.

Lemma changes_only_trans ps w1 w2 w3 :
  changes_only ps w1 w2 -> changes_only ps w2 w3 -> changes_only ps w1 w3.
Proof.
  intros (Hf1 & Hn1 & Hl1 & H1) (Hf2 & Hn2 & Hl2 & H2).
  split_and!; try congruence. intros q Hq. by rewrite H2, H1.
Qed.

Lemma changes_only_with_file ps w p c : p ∈ ps -> changes_only ps w (with_file w p c).
Proof.
  intros Hp. split_and!; try done. intros q Hq. simpl.
  apply lookup_insert_ne. by intros ->.
Qed.

Lemma changes_only_os_Remove ps w p : p ∈ ps -> changes_only ps w (os_Remove p w).2.
Proof.
  intros Hp. destruct (os_Remove_world p w) as [-> | ->]; [apply changes_only_refl|].
  split_and!; try done. intros q Hq. simpl. apply lookup_delete_ne. by intros ->.
Qed.

Lemma changes_only_writeMetadata ps b key metadata w err w' :
  path_Join (metaPath b) key ∈ ps ->
  writeMetadata b key metadata w = (err, w') -> changes_only ps w w'.
Proof.
  intros Hp H.
  apply writeMetadata_cases in H as [(_ & _ & ->)|[(f & _ & _ & ->)|(e' & part & _ & _ & _ & ->)]].
  - by apply changes_only_with_file.
  - apply changes_only_refl.
  - eapply changes_only_trans; [by apply changes_only_with_file|].
    by apply changes_only_os_Remove.
Qed.

(** X1. Whatever its outcome, [Put] changes nothing but the data file and
    the sidecar of its key: every other file, the injected faults, the
    clock and the limits are as before. *)
Theorem Put_changes_only_its_key
    b key r expiryTime deleteKey accessKey srcIp originalName w res w' :
  Put b key r expiryTime deleteKey accessKey srcIp originalName w = (res, w') ->
  changes_only [path_Join (filesPath b) key; path_Join (metaPath b) key] w w'.
Proof.
  intros H. apply Put_cases in H as [(e & _ & _ & ->)|(_ & H)];
    [apply changes_only_refl|].
  destruct H as (bytes & err & dst & hasher & new & _ & _ & _ & _ & _ & H).
  assert (changes_only [path_Join (filesPath b) key; path_Join (metaPath b) key] w
            (with_file w (path_Join (filesPath b) key) new)) as Hcopy
    by (apply changes_only_with_file; apply list_elem_of_here).
  destruct H as [(e & _ & -> & _)|(_ & _ & _ & _ & werr & w3 & Hwm & _ & ->)].
  - eapply changes_only_trans; [exact Hcopy|]. apply changes_only_os_Remove. apply list_elem_of_here.
  - eapply changes_only_trans; [exact Hcopy|].
    eapply changes_only_trans; [eapply changes_only_writeMetadata; [|exact Hwm];
       apply list_elem_of_further, list_elem_of_here|].
    destruct werr; [apply changes_only_os_Remove, list_elem_of_here | apply changes_only_refl].
Qed.

(** X2. The size a successful [Put] records is positive and strictly
    below the configured maximum: empty uploads and uploads of [MaxSize]
    bytes or more are never stored. *)
Theorem Put_size_within_limits
    b key r expiryTime deleteKey accessKey srcIp originalName w m w' :
  Put b key r expiryTime deleteKey accessKey srcIp originalName w = ((m, None), w') ->
  0 < backends.Size m < MaxSize (Limits w).
Proof.
  intros H. apply Put_success in H as (_ & Hne & Hsz & -> & _). simpl.
  split; [|done]. destruct (r_content r); [done | simpl; lia].
Qed.

(** X3. When the environment injects no failure on the two paths of the
    key, [Put] returns a nil error exactly when the stream ends cleanly,
    is not empty and is shorter than [MaxSize]. *)
Theorem Put_succeeds_iff b key r expiryTime deleteKey accessKey srcIp originalName w :
  unfaulted w (path_Join (filesPath b) key) ->
  unfaulted w (path_Join (metaPath b) key) ->
  (Put b key r expiryTime deleteKey accessKey srcIp originalName w).1.2 = None <->
  r_end r = EOF /\ r_content r <> [] /\
  Z.of_nat (length (r_content r)) < MaxSize (Limits w).
Proof.
  intros Hf Hm. split.
  - destruct (Put b key r expiryTime deleteKey accessKey srcIp originalName w)
      as [[m err] w'] eqn:HPut. simpl. intros ->.
    by apply Put_success in HPut as (? & ? & ? & _).
  - intros (Hend & Hne & Hsz).
    by destruct (Put_succeeds b key r expiryTime deleteKey accessKey srcIp originalName w)
      as [w' ->].
Qed.

(** X4. Upload then download: after a successful [Put], [Get] of the key
    succeeds and its stream yields exactly the bytes that were uploaded
    (data and metadata living at different paths, both readable). *)
Theorem Put_then_Get_returns_content
    b key r expiryTime deleteKey accessKey srcIp originalName w m w' :
  Put b key r expiryTime deleteKey accessKey srcIp originalName w = ((m, None), w') ->
  json_Unmarshal (json_Marshal (mjson_of m)) = Some (mjson_of m) ->
  path_Join (metaPath b) key <> path_Join (filesPath b) key ->
  open_fault (faults w) (path_Join (metaPath b) key) = None ->
  read_fault (faults w) (path_Join (metaPath b) key) = None ->
  open_fault (faults w) (path_Join (filesPath b) key) = None ->
  read_fault (faults w) (path_Join (filesPath b) key) = None ->
  exists m' f,
    Get b key w' = (m', fileStream (Some f), None) /\
    io_ReadAll f w' = inl (r_content r).
Proof.
  intros HPut Hcodec Hne Hom Hrm Hof Hrf.
  apply Put_success in HPut as (_ & _ & _ & _ & ->).
  exists (decoded (mjson_of m)), (mkFile (path_Join (filesPath b) key) 0).
  assert (files (with_file (with_file w (path_Join (filesPath b) key) (r_content r))
                   (path_Join (metaPath b) key) (json_Marshal (mjson_of m)))
            !! path_Join (filesPath b) key = Some (r_content r)) as Hdata.
  { simpl. rewrite lookup_insert_ne by done. apply lookup_insert_eq. }
  split.
  - unfold Get. erewrite Head_decoded; eauto; [|apply lookup_insert_eq].
    unfold os_Open. rewrite Hdata. simpl faults. by rewrite Hof.
  - unfold io_ReadAll. simpl f_path. rewrite Hdata. simpl faults. by rewrite Hrf.
Qed.

(** X5. After a successful [Put], [Head] returns the record [Put]
    returned except for two fields: [SrcIp] comes back empty, and [Expiry]
    comes back truncated to the second, never later than the expiry [Put]
    computed and less than one second before it. *)
Theorem Put_then_Head_metadata
    b key r expiryTime deleteKey accessKey srcIp originalName w m w' :
  Put b key r expiryTime deleteKey accessKey srcIp originalName w = ((m, None), w') ->
  json_Unmarshal (json_Marshal (mjson_of m)) = Some (mjson_of m) ->
  open_fault (faults w) (path_Join (metaPath b) key) = None ->
  read_fault (faults w) (path_Join (metaPath b) key) = None ->
  exists expiry',
    Head b key w'
    = ({| backends.DeleteKey := deleteKey;
          backends.AccessKey := accessKey;
          backends.Sha256sum := backends.Sha256sum m;
          backends.Mimetype := backends.Mimetype m;
          backends.Size := backends.Size m;
          backends.Expiry := expiry';
          backends.SrcIp := EmptyString;
          backends.OriginalName := originalName;
          backends.ArchiveFiles := backends.ArchiveFiles m |}, None) /\
    unixNano expiry' mod time_Second = 0 /\
    unixNano expiry' <= unixNano (backends.Expiry m) < unixNano expiry' + time_Second.
Proof.
  intros HPut Hcodec Hom Hrm.
  apply Put_success in HPut as (_ & _ & _ & Hm & ->).
  exists (time_Unix (Time_Unix (backends.Expiry m)) 0). split.
  - erewrite Head_decoded; eauto; [|apply lookup_insert_eq].
    unfold decoded. rewrite Hm. reflexivity.
  - unfold time_Unix, Time_Unix, time_Second. simpl unixNano.
    generalize (unixNano (backends.Expiry m)). intros n.
    pose proof (Z_div_mod_eq_full n 1000000000).
    pose proof (Z.mod_pos_bound n 1000000000).
    rewrite Z.add_0_r, Z.mod_mul by lia. lia.
Qed.

(** X6. Uploads above the size threshold never outlive the maximum
    duration: their expiry is at most now + [maxDurationTime] as soon as a
    duration was requested or the maximum is positive (with a maximum of
    zero a requested lifetime therefore gives an expiry that is not after
    now); only a zero request under a non-positive maximum never expires.
    At or below the threshold the maximum plays no part. *)
Theorem Put_expiry_capped
    b key r expiryTime deleteKey accessKey srcIp originalName w m w' :
  Put b key r expiryTime deleteKey accessKey srcIp originalName w = ((m, None), w') ->
  let size := Z.of_nat (length (r_content r)) in
  (size > MaxDurationSize (Limits w) ->
   (expiryTime <> 0 \/ maxDurationTime w > 0 ->
    unixNano (backends.Expiry m) <= unixNano (now w) + maxDurationTime w) /\
   (expiryTime = 0 -> maxDurationTime w <= 0 ->
    backends.Expiry m = expiry_NeverExpire)) /\
  (size <= MaxDurationSize (Limits w) ->
   backends.Expiry m
   = if expiryTime =? 0 then expiry_NeverExpire else time_Add (now w) expiryTime).
Proof.
  intros HPut size.
  apply Put_success in HPut as (_ & _ & _ & -> & _). simpl backends.Expiry. fold size.
  unfold fileExpiry.
  destruct (Z.eqb_spec expiryTime 0) as [Hd|Hd];
    destruct (Z.gtb_spec size (MaxDurationSize (Limits w)));
    [destruct (Z.gtb_spec (maxDurationTime w) 0) | |
     destruct (Z.gtb_spec expiryTime (maxDurationTime w)) | ];
    simpl; (split; [intros Hsz; split; [intros Hreq | intros Hz Hmax] | intros Hsz]);
    try done; simpl; lia.
Qed.

(** X7. The configured maximum, a [uint64] count of seconds, turns into
    the same number of nanoseconds exactly when that number fits an
    [int64], that is below 9223372037 s; above it the product wraps. *)
Theorem maxDurationTime_exact_iff w :
  0 <= MaxDurationTime (Limits w) ->
  (maxDurationTime w = MaxDurationTime (Limits w) * time_Second <->
   MaxDurationTime (Limits w) < 9223372037) /\
  - 2^63 <= maxDurationTime w < 2^63.
Proof.
  intros Hpos.
  assert (- 2^63 <= maxDurationTime w < 2^63) as Hrange.
  { unfold maxDurationTime. generalize (wrap64 (MaxDurationTime (Limits w)) * time_Second).
    intros z. unfold wrap64. pose proof (Z.mod_pos_bound (z + 2^63) (2^64)). lia. }
  split; [|done]. split.
  - intros Heq. rewrite Heq in Hrange. unfold time_Second in Hrange. lia.
  - intros Hlt. apply maxDurationTime_exact. unfold time_Second. lia.
Qed.

(** *** Round trips through the sidecar *)

Lemma Head_success_inv b key w m :
  Head b key w = (m, None) -> exists mjson, m = decoded mjson.
Proof.
  unfold Head. destruct (os_Open _ _) as [f|e].
  - destruct (json_Decode f w) as [mjson|]; intros [= <-]. by exists mjson.
  - by destruct (os_IsNotExist e).
Qed.

Lemma decoded_mjson_of_decoded mjson : decoded (mjson_of (decoded mjson)) = decoded mjson.
Proof.
  unfold decoded, mjson_of. cbn [backends.Expiry Expiry DeleteKey AccessKey Sha256sum
    Mimetype Size SrcIp OriginalName ArchiveFiles backends.DeleteKey backends.AccessKey
    backends.Sha256sum backends.Mimetype backends.Size backends.SrcIp
    backends.OriginalName backends.ArchiveFiles].
  f_equal. unfold Time_Unix, time_Unix. cbn [unixNano]. f_equal.
  rewrite !Z.add_0_r, Z.div_mul; [done|]. by unfold time_Second.
Qed.

(** X8. What [Head] returns survives a rewrite unchanged: writing a record
    obtained from [Head] back with [PutMetadata] and reading it again
    gives exactly that record, in every field. *)
Theorem Head_PutMetadata_Head b key w m w' :
  Head b key w = (m, None) ->
  PutMetadata b key m w = (None, w') ->
  json_Unmarshal (json_Marshal (mjson_of m)) = Some (mjson_of m) ->
  open_fault (faults w) (path_Join (metaPath b) key) = None ->
  read_fault (faults w) (path_Join (metaPath b) key) = None ->
  Head b key w' = (m, None).
Proof.
  intros HHead HPut Hcodec Hopen Hread.
  apply Head_success_inv in HHead as [mjson ->].
  unfold PutMetadata in HPut.
  apply writeMetadata_cases in HPut as [(_ & _ & ->)|[(e & [=] & _)|(e & part & [=] & _)]].
  rewrite (Head_decoded b key
             (with_file w (path_Join (metaPath b) key)
                (json_Marshal (mjson_of (decoded mjson))))
             _ _ ltac:(apply lookup_insert_eq) Hopen Hread Hcodec).
  by rewrite decoded_mjson_of_decoded.
Qed.

(** X9. [PutMetadata] changes nothing but the sidecar of its key,
    whatever its outcome; in particular the data file is never touched. *)
Theorem PutMetadata_changes_only_sidecar b key m w err w' :
  PutMetadata b key m w = (err, w') ->
  changes_only [path_Join (metaPath b) key] w w' /\
  (path_Join (metaPath b) key <> path_Join (filesPath b) key ->
   files w' !! path_Join (filesPath b) key = files w !! path_Join (filesPath b) key).
Proof.
  unfold PutMetadata. intros H.
  assert (changes_only [path_Join (metaPath b) key] w w') as Hch
    by (eapply changes_only_writeMetadata; [apply list_elem_of_here | exact H]).
  split; [done|]. intros Hne. destruct Hch as (_ & _ & _ & Hfiles).
  apply Hfiles. rewrite list_elem_of_singleton. congruence.
Qed.

(** X10. [PutMetadata] does not ask for a data file.  On a key without
    data it succeeds when the sidecar can be written, and the key is then
    half present: [Head] returns the record; [Exists] reports false;
    [Get] returns the record, the error of the failed open of the data
    file and, with it, a stream that is not nil but holds the nil file
    of that open; and [ServeFile] returns no error, leaving the failed
    open to the HTTP file server.  The error of the open is [ENOENT]
    unless the path of the data file cannot be resolved. *)
Theorem PutMetadata_without_data b key req m w :
  files w !! path_Join (filesPath b) key = None ->
  path_Join (metaPath b) key <> path_Join (filesPath b) key ->
  unfaulted w (path_Join (metaPath b) key) ->
  json_Unmarshal (json_Marshal (mjson_of m)) = Some (mjson_of m) ->
  exists w' e,
    PutMetadata b key m w = (None, w') /\
    Head b key w' = (decoded (mjson_of m), None) /\
    (Exists b key w').1 = false /\
    os_Open (path_Join (filesPath b) key) w' = inr e /\
    Get b key w' = (decoded (mjson_of m), fileStream None, Some e) /\
    ServeFile b key req w' = (None, Some (http_respond req (inr e))) /\
    (open_fault (faults w) (path_Join (filesPath b) key) = None \/
     create_fault (faults w) (path_Join (filesPath b) key) = None ->
     e = PathError ENOENT).
Proof.
  intros Hnodata Hne (Hc & Ho & _ & _ & Hr & Hw) Hcodec.
  destruct (PutMetadata b key m w) as [err w'] eqn:HPut.
  exists w', (open_absent (path_Join (filesPath b) key) w).
  unfold PutMetadata in HPut.
  apply writeMetadata_cases in HPut as [(-> & _ & ->)|[(e & _ & ? & _)|(e & part & _ & _ & ? & _)]];
    [|congruence|done].
  assert (Head b key (with_file w (path_Join (metaPath b) key) (json_Marshal (mjson_of m)))
          = (decoded (mjson_of m), None)) as HHead.
  { eapply Head_decoded; eauto. apply lookup_insert_eq. }
  assert (files (with_file w (path_Join (metaPath b) key) (json_Marshal (mjson_of m)))
            !! path_Join (filesPath b) key = None) as Hgone.
  { simpl. by rewrite lookup_insert_ne. }
  assert (os_Open (path_Join (filesPath b) key)
            (with_file w (path_Join (metaPath b) key) (json_Marshal (mjson_of m)))
          = inr (open_absent (path_Join (filesPath b) key) w)) as Hopen.
  { unfold os_Open. by rewrite Hgone. }
  split_and!; try done.
  - unfold Exists, os_Stat. by rewrite Hgone.
  - unfold Get. by rewrite HHead, Hopen.
  - unfold ServeFile, http_ServeFile. by rewrite HHead, Hopen.
  - unfold open_absent. intros [->| ->]; [done|].
    by destruct (open_fault (faults w) (path_Join (filesPath b) key)).
Qed.

(** X11. [PutMetadata] is not atomic: when the sidecar was created but
    its encoding could not be written, the sidecar is removed, so the
    metadata stored before is lost and [Head] reports [NotFoundErr]. *)
Theorem PutMetadata_failed_write_loses_sidecar b key m w e w' :
  PutMetadata b key m w = (Some e, w') ->
  create_fault (faults w) (path_Join (metaPath b) key) = None ->
  remove_fault (faults w) (path_Join (metaPath b) key) = None ->
  Head b key w' = (zeroMetadata, Some NotFoundErr).
Proof.
  unfold PutMetadata. intros H Hc Hr.
  pose proof (writeMetadata_faults _ _ _ _ _ _ H) as Hf.
  apply writeMetadata_encode_failure_removes in H; [|done..].
  unfold Head, os_Open, open_absent. rewrite H, Hf, Hc.
  by destruct (open_fault _ _).
Qed.

(** *** [Delete], [Size] and [Exists] after an upload *)

(** X12. [Delete] can fail after it has removed the data: when the data
    file is removed and the removal of the sidecar fails (it is missing,
    for one), [Delete] returns that error and the data file is gone. *)
Theorem Delete_fails_after_removing_data b key w c e :
  files w !! path_Join (filesPath b) key = Some c ->
  remove_fault (faults w) (path_Join (filesPath b) key) = None ->
  (os_Remove (path_Join (metaPath b) key)
     (without_file w (path_Join (filesPath b) key))).1 = Some e ->
  Delete b key w = (Some e, without_file w (path_Join (filesPath b) key)) /\
  (Exists b key (without_file w (path_Join (filesPath b) key))).1 = false.
Proof.
  intros Hc Hr Hmeta. unfold Delete. rewrite (os_Remove_present _ _ c) by done.
  split.
  - unfold os_Remove in *.
    change (faults (without_file w (path_Join (filesPath b) key))) with (faults w) in *.
    destruct (files (without_file w _) !! path_Join (metaPath b) key);
      [destruct (remove_fault (faults w) (path_Join (metaPath b) key))|];
      simpl in Hmeta; by simplify_eq.
  - unfold Exists, os_Stat. simpl. by rewrite lookup_delete_eq.
Qed.

(** X13. Upload then delete: on a key that had neither file, a successful
    [Put] followed by [Delete] succeeds and gives back the world as it
    was before the upload. *)
Theorem Put_then_Delete_restores
    b key r expiryTime deleteKey accessKey srcIp originalName w m w' :
  Put b key r expiryTime deleteKey accessKey srcIp originalName w = ((m, None), w') ->
  files w !! path_Join (filesPath b) key = None ->
  files w !! path_Join (metaPath b) key = None ->
  path_Join (metaPath b) key <> path_Join (filesPath b) key ->
  remove_fault (faults w) (path_Join (filesPath b) key) = None ->
  remove_fault (faults w) (path_Join (metaPath b) key) = None ->
  Delete b key w' = (None, w).
Proof.
  intros HPut Hf Hm Hne Hrf Hrm.
  apply Put_success in HPut as (_ & _ & _ & _ & ->).
  assert (delete (path_Join (metaPath b) key)
            (delete (path_Join (filesPath b) key)
               (<[path_Join (metaPath b) key := json_Marshal (mjson_of m)]>
                  (<[path_Join (filesPath b) key := r_content r]> (files w))))
          = files w) as Hfiles.
  { apply map_eq. intros q. rewrite !lookup_delete, !lookup_insert.
    repeat case_decide; subst; congruence. }
  unfold Delete.
  rewrite (os_Remove_present _ _ (r_content r));
    [|by simpl; rewrite lookup_insert_ne, lookup_insert_eq|done].
  rewrite (os_Remove_present _ _ (json_Marshal (mjson_of m)));
    [|by simpl; rewrite lookup_delete_ne, lookup_insert_eq|done].
  f_equal. unfold without_file, with_file. simpl. rewrite !set_files_twice, Hfiles.
  apply set_files_id.
Qed.

(** X14. After a successful [Put], [Exists] reports true and [Size]
    reports the size recorded in the metadata, which it reads off the
    data file itself (a stat that is not faulted, data and metadata at
    different paths). *)
Theorem Put_then_Exists_and_Size
    b key r expiryTime deleteKey accessKey srcIp originalName w m w' :
  Put b key r expiryTime deleteKey accessKey srcIp originalName w = ((m, None), w') ->
  path_Join (metaPath b) key <> path_Join (filesPath b) key ->
  stat_fault (faults w) (path_Join (filesPath b) key) = None ->
  Exists b key w' = (true, None) /\
  Size_ b key w' = (backends.Size m, None) /\
  Size_ b key w' = (Z.of_nat (length (r_content r)), None).
Proof.
  intros HPut Hne Hst.
  apply Put_success in HPut as (_ & _ & _ & Hm & ->).
  assert (os_Stat (path_Join (filesPath b) key)
            (with_file (with_file w (path_Join (filesPath b) key) (r_content r))
               (path_Join (metaPath b) key) (json_Marshal (mjson_of m)))
          = inl (Z.of_nat (length (r_content r)))) as Hstat.
  { unfold os_Stat. simpl. rewrite lookup_insert_ne, lookup_insert_eq by done.
    by rewrite Hst. }
  unfold Exists, Size_. rewrite Hstat. split_and!; try done. by rewrite Hm.
Qed.

(** *** The checksum string *)

Lemma hex_value_digit n : (n < 16)%N -> hex_value (hex_digit n) = Some n.
Proof.
  intros Hn. destruct n as [|p]; [done|].
  do 5 (try (destruct p as [p|p|]; try done; try lia)).
Qed.

Lemma hex_EncodeToString_inj bs1 :
  forall bs2, hex_EncodeToString bs1 = hex_EncodeToString bs2 -> bs1 = bs2.
Proof.
  induction bs1 as [|a bs1 IH]; intros [|c bs2]; simpl; try done.
  intros [= Hhi Hlo Hrest]. f_equal; [|by apply IH].
  pose proof (Byte.to_N_bounded a). pose proof (Byte.to_N_bounded c).
  apply (f_equal hex_value) in Hhi, Hlo.
  rewrite !hex_value_digit in Hhi, Hlo
    by (try apply N.mod_lt; try apply N.Div0.div_lt_upper_bound; lia).
  injection Hhi as Hhi. injection Hlo as Hlo.
  assert (Byte.to_N a = Byte.to_N c) as Heq.
  { rewrite (N.div_mod (Byte.to_N a) 16), (N.div_mod (Byte.to_N c) 16) by lia.
    by rewrite Hhi, Hlo. }
  apply (f_equal Byte.of_N) in Heq. rewrite !Byte.of_to_N in Heq. by injection Heq.
Qed.

Lemma hex_EncodeToString_length bs :
  String.length (hex_EncodeToString bs) = (2 * length bs)%nat.
Proof. induction bs as [|a bs IH]; simpl; [done|]. rewrite IH. lia. Qed.

(** X15. The checksum a successful [Put] records is two hexadecimal
    characters per digest byte, and it identifies the digest: two
    successful uploads record the same [Sha256sum] exactly when the
    digests of their contents are equal. *)
Theorem Put_Sha256sum_identifies_digest
    b1 key1 r1 expiryTime1 deleteKey1 accessKey1 srcIp1 originalName1 w1 m1 w1'
    b2 key2 r2 expiryTime2 deleteKey2 accessKey2 srcIp2 originalName2 w2 m2 w2' :
  Put b1 key1 r1 expiryTime1 deleteKey1 accessKey1 srcIp1 originalName1 w1
  = ((m1, None), w1') ->
  Put b2 key2 r2 expiryTime2 deleteKey2 accessKey2 srcIp2 originalName2 w2
  = ((m2, None), w2') ->
  (backends.Sha256sum m1 = backends.Sha256sum m2 <->
   sha256_Sum (r_content r1) = sha256_Sum (r_content r2)) /\
  String.length (backends.Sha256sum m1) = (2 * length (sha256_Sum (r_content r1)))%nat.
Proof.
  intros H1 H2.
  apply Put_success in H1 as (_ & _ & _ & -> & _).
  apply Put_success in H2 as (_ & _ & _ & -> & _). simpl.
  split; [split|].
  - apply hex_EncodeToString_inj.
  - by intros ->.
  - apply hex_EncodeToString_length.
Qed.

(** *** [List] *)

Lemma List_loop (files : list string) (output : list string) :
  fold_left (fun output file => output ++ [file]) files output = output ++ files.
Proof.
  revert output. induction files as [|f files IH]; intros output; simpl.
  - by rewrite app_nil_r.
  - by rewrite IH, <- app_assoc.
Qed.

(** On a readable data directory [List] succeeds, and the names it
    returns are the entries of the stored paths. *)
Lemma List_readable b w :
  readable_dir w (filesPath b) ->
  exists names, List b w = (names, None) /\
    forall name, name ∈ names <-> listed (filesPath b) w name.
Proof.
  intros [Ho Hr]. unfold List, os_ReadDir. rewrite Ho, Hr, List_loop. simpl.
  eexists. split; [done|]. intros name.
  rewrite merge_sort_Permutation, elem_of_remove_dups, list_elem_of_omap.
  unfold listed. split; intros (p & Hp & He); exists p; split; try done.
  - by apply elem_of_dom, elem_of_elements.
  - by apply elem_of_elements, elem_of_dom.
Qed.

(** Paths that do not show in the directory do not matter to the listing. *)
Lemma listed_changes_only ps dir w w' name :
  changes_only ps w w' ->
  (forall p, p ∈ ps -> entry_of dir p = None) ->
  listed dir w' name <-> listed dir w name.
Proof.
  intros (_ & _ & _ & Hfiles) Hps.
  split; intros (p & Hp & He); exists p; split; try done.
  - rewrite <- Hfiles; [done|]. intros Hin. rewrite (Hps p Hin) in He. done.
  - rewrite Hfiles; [done|]. intros Hin. rewrite (Hps p Hin) in He. done.
Qed.

(** X16. After a successful [Put], [List] returns the names it returned
    before together with the key: the upload adds exactly its key to the
    listing (the key naming its data file in the data directory, the
    sidecar lying outside of it). *)
Theorem Put_then_List
    b key r expiryTime deleteKey accessKey srcIp originalName w m w' :
  Put b key r expiryTime deleteKey accessKey srcIp originalName w = ((m, None), w') ->
  entry_of (filesPath b) (path_Join (filesPath b) key) = Some key ->
  entry_of (filesPath b) (path_Join (metaPath b) key) = None ->
  readable_dir w (filesPath b) ->
  exists names names',
    List b w = (names, None) /\ List b w' = (names', None) /\
    forall name, name ∈ names' <-> name = key \/ name ∈ names.
Proof.
  intros HPut Hdata Hmeta Hdir.
  apply Put_success in HPut as (_ & _ & _ & _ & ->).
  destruct (List_readable b w Hdir) as (names & HL & Hnames).
  destruct (List_readable b
              (with_file (with_file w (path_Join (filesPath b) key) (r_content r))
                 (path_Join (metaPath b) key) (json_Marshal (mjson_of m))) Hdir)
    as (names' & HL' & Hnames').
  exists names, names'. split_and!; try done. intros name.
  rewrite Hnames', Hnames. unfold listed. simpl. split.
  - intros (p & Hp & He).
    destruct (decide (p = path_Join (metaPath b) key)) as [->|Hpm]; [congruence|].
    destruct (decide (p = path_Join (filesPath b) key)) as [->|Hpf]; [left; congruence|].
    right. exists p. by rewrite !lookup_insert_ne in Hp.
  - intros [->|(p & Hp & He)].
    + exists (path_Join (filesPath b) key). split; [|done].
      rewrite lookup_insert_ne by congruence. by rewrite lookup_insert_eq.
    + exists p. split; [|done].
      rewrite !lookup_insert_is_Some'. auto.
Qed.

(** X17. The listing does not depend on sidecars: whatever [PutMetadata]
    does to the sidecar of a key, [List] returns the same names after it
    as before (the sidecar lying outside the data directory). *)
Theorem PutMetadata_then_List b key m w err w' :
  PutMetadata b key m w = (err, w') ->
  entry_of (filesPath b) (path_Join (metaPath b) key) = None ->
  readable_dir w (filesPath b) ->
  exists names names',
    List b w = (names, None) /\ List b w' = (names', None) /\
    forall name, name ∈ names' <-> name ∈ names.
Proof.
  unfold PutMetadata. intros HPut Hmeta Hdir.
  assert (changes_only [path_Join (metaPath b) key] w w') as Hch
    by (eapply changes_only_writeMetadata; [apply list_elem_of_here | exact HPut]).
  assert (readable_dir w' (filesPath b)) as Hdir'.
  { destruct Hch as (Hf & _). unfold readable_dir. by rewrite Hf. }
  destruct (List_readable b w Hdir) as (names & HL & Hnames).
  destruct (List_readable b w' Hdir') as (names' & HL' & Hnames').
  exists names, names'. split_and!; try done. intros name.
  rewrite Hnames', Hnames. eapply listed_changes_only; [exact Hch|].
  intros p Hp. apply list_elem_of_singleton in Hp. by subst.
Qed.

(** X18. [List] goes by data files alone.  A key whose data file is
    stored is listed even when it has no sidecar, so that [Head] of a
    listed key can fail: with [NotFoundErr] when the open of the missing
    sidecar reports that it does not exist, which it does whenever the
    path of the sidecar resolves, and with [BadMetadata] otherwise. *)
Theorem List_includes_data_without_sidecar b key w c :
  files w !! path_Join (filesPath b) key = Some c ->
  files w !! path_Join (metaPath b) key = None ->
  entry_of (filesPath b) (path_Join (filesPath b) key) = Some key ->
  readable_dir w (filesPath b) ->
  exists names,
    List b w = (names, None) /\ key ∈ names /\
    Head b key w
    = (zeroMetadata,
       Some (if os_IsNotExist (open_absent (path_Join (metaPath b) key) w)
             then NotFoundErr else BadMetadata)) /\
    (open_fault (faults w) (path_Join (metaPath b) key) = None \/
     create_fault (faults w) (path_Join (metaPath b) key) = None ->
     Head b key w = (zeroMetadata, Some NotFoundErr)).
Proof.
  intros Hdata Hmeta Hentry Hdir.
  destruct (List_readable b w Hdir) as (names & HL & Hnames).
  exists names. split_and!; [done| | |].
  - apply Hnames. exists (path_Join (filesPath b) key). by rewrite Hdata.
  - unfold Head, os_Open. rewrite Hmeta. by destruct (os_IsNotExist _).
  - unfold Head, os_Open, open_absent. rewrite Hmeta.
    intros [->| ->]; [done|]. by destruct (open_fault _ _).
Qed.

(** X19. After a successful [Delete] the key is no longer listed and the
    other names are listed as before (the key naming its data file in the
    data directory, no other stored path showing under that name, the
    sidecar lying outside the data directory). *)
Theorem Delete_then_List b key w w' :
  Delete b key w = (None, w') ->
  entry_of (filesPath b) (path_Join (filesPath b) key) = Some key ->
  entry_of (filesPath b) (path_Join (metaPath b) key) = None ->
  (forall p, is_Some (files w !! p) -> entry_of (filesPath b) p = Some key ->
             p = path_Join (filesPath b) key) ->
  readable_dir w (filesPath b) ->
  exists names names',
    List b w = (names, None) /\ List b w' = (names', None) /\
    forall name, name ∈ names' <-> name ∈ names /\ name <> key.
Proof.
  intros HDel Hdata Hmeta Honly Hdir.
  assert (w' = without_file (without_file w (path_Join (filesPath b) key))
                 (path_Join (metaPath b) key)) as ->.
  { unfold Delete, os_Remove in HDel.
    destruct (files w !! path_Join (filesPath b) key); [|done].
    destruct (remove_fault (faults w) (path_Join (filesPath b) key)); [done|].
    simpl in HDel.
    destruct (delete _ (files w) !! path_Join (metaPath b) key); [|done].
    destruct (remove_fault (faults w) (path_Join (metaPath b) key)); [done|].
    by injection HDel as <-. }
  destruct (List_readable b w Hdir) as (names & HL & Hnames).
  destruct (List_readable b
              (without_file (without_file w (path_Join (filesPath b) key))
                 (path_Join (metaPath b) key)) Hdir) as (names' & HL' & Hnames').
  exists names, names'. split_and!; try done. intros name.
  rewrite Hnames', Hnames. unfold listed. simpl. split.
  - intros (p & Hp & He).
    rewrite lookup_delete_is_Some in Hp. destruct Hp as (Hpm & Hp).
    rewrite lookup_delete_is_Some in Hp. destruct Hp as (Hpf & Hp).
    split; [by exists p|]. intros ->. by specialize (Honly p Hp He).
  - intros ((p & Hp & He) & Hne). exists p. split; [|done].
    rewrite !lookup_delete_is_Some. split_and!; try done; intros <-; congruence.
Qed.

(** *** The stream as a sequence of reads *)

(** Without a write failure [io.Copy] is a function of the content: it
    writes and hashes all of it and reports how the reader ended. *)
Lemma io_Copy_unfaulted chunks :
  forall dst r_end hasher written w old,
    files w !! f_path dst = Some old ->
    f_off dst = length old ->
    write_fault (faults w) (f_path dst) = None ->
    io_Copy dst chunks r_end hasher written w
    = ((written + Z.of_nat (length (concat chunks)), copy_error r_end),
       (mkFile (f_path dst) (length (old ++ concat chunks)), hasher ++ concat chunks,
        set_files w (<[f_path dst := old ++ concat chunks]> (files w)))).
Proof.
  induction chunks as [|c chunks IH]; intros dst r_end hasher written w old Hold Hoff Hwf;
    simpl.
  - rewrite !app_nil_r, insert_id, set_files_id, Z.add_0_r, <- Hoff by done.
    by destruct dst.
  - destruct c as [|x c].
    { rewrite app_nil_r. by apply IH. }
    unfold file_Write. rewrite Hold, Hwf, Hoff, write_at_end.
    rewrite (IH _ _ _ _ _ (old ++ x :: c)); simpl;
      [|apply lookup_insert_eq|by rewrite length_app|done].
    rewrite set_files_twice, insert_insert_eq, <- !app_assoc. simpl.
    do 2 f_equal. rewrite length_app. lia.
Qed.

(** X20. How the caller's reader splits the stream into reads does not
    matter: two readers that deliver the same bytes and end the same way
    make [Put] return the same result and leave the same world (writes to
    the data file not being cut short). *)
Theorem Put_independent_of_chunking
    b key r1 r2 expiryTime deleteKey accessKey srcIp originalName w :
  r_content r1 = r_content r2 ->
  r_end r1 = r_end r2 ->
  write_fault (faults w) (path_Join (filesPath b) key) = None ->
  Put b key r1 expiryTime deleteKey accessKey srcIp originalName w
  = Put b key r2 expiryTime deleteKey accessKey srcIp originalName w.
Proof.
  unfold r_content. intros Hcontent Hend Hwf. unfold Put, os_Create.
  destruct (create_fault (faults w) (path_Join (filesPath b) key)); [done|].
  rewrite !(io_Copy_unfaulted _ _ _ _ _ _ []);
    try done; try apply lookup_insert_eq.
  by rewrite Hcontent, Hend.
Qed.

(** X21. [Get] hands out a stream only for a key that is wholly there:
    when it returns no error, the sidecar is stored and parses to the
    metadata returned, the data file is stored, and the stream is the
    data file opened at offset 0, which yields its bytes when read. *)
Theorem Get_success_inv b key w m f :
  Get b key w = (m, fileStream (Some f), None) ->
  exists c mjson data,
    files w !! path_Join (metaPath b) key = Some c /\
    json_Unmarshal c = Some mjson /\ m = decoded mjson /\
    files w !! path_Join (filesPath b) key = Some data /\
    f = mkFile (path_Join (filesPath b) key) 0 /\
    (read_fault (faults w) (path_Join (filesPath b) key) = None ->
     io_ReadAll f w = inl data).
Proof.
  unfold Get. destruct (Head b key w) as [m' [e|]] eqn:HHead; [done|].
  destruct (os_Open (path_Join (filesPath b) key) w) as [f'|e] eqn:Hopen; [|done].
  intros [= -> ->].
  unfold os_Open in Hopen.
  destruct (files w !! path_Join (filesPath b) key) as [data|] eqn:Hdata; [|done].
  destruct (open_fault (faults w) (path_Join (filesPath b) key)); [done|].
  injection Hopen as <-.
  unfold Head, os_Open, json_Decode, io_ReadAll in HHead.
  destruct (files w !! path_Join (metaPath b) key) as [c|] eqn:Hc;
    [|by destruct (os_IsNotExist _)].
  destruct (open_fault (faults w) (path_Join (metaPath b) key)); [done|].
  simpl in HHead. rewrite Hc in HHead.
  destruct (read_fault (faults w) (path_Join (metaPath b) key)); [done|].
  change (drop 0 c) with c in HHead.
  destruct (json_Unmarshal c) as [mjson|] eqn:Hj; [|done].
  injection HHead as <-.
  exists c, mjson, data. split_and!; try done.
  intros Hr. unfold io_ReadAll. simpl. by rewrite Hdata, Hr.
Qed.

End Localfs.


(** ** The model on concrete inputs *)

Local Abbreviation RefPut :=
  (Put Ref.path_Join Ref.sum_digest Ref.mimetype_Detect Ref.ListArchiveFiles
       Ref.NeverExpire Ref.json_Marshal).
Local Abbreviation RefHead := (Head Ref.path_Join Ref.json_Unmarshal).
Local Abbreviation RefPutMetadata := (PutMetadata Ref.path_Join Ref.json_Marshal).
Local Abbreviation RefGet := (Get Ref.path_Join Ref.json_Unmarshal).
Local Abbreviation RefServeFile :=
  (ServeFile Ref.path_Join Ref.json_Unmarshal unit (list byte + error) (fun _ x => x)).
Local Abbreviation RefDelete := (Delete Ref.path_Join).
Local Abbreviation RefExists := (Exists Ref.path_Join).

(** The upload of [hello] under key [k] into the empty world. *)
Local Abbreviation put_hello :=
  (RefPut Ref.backend "k" Ref.hello 0 "del" EmptyString "10.0.0.1" "a.txt"
     Ref.empty_world).

Example put_hello_succeeds :
  put_hello.1 =
  (mkMetadata "del" EmptyString "88" "application/octet-stream" 12 Ref.NeverExpire
     "10.0.0.1" "a.txt" [], None).
Proof. vm_compute. reflexivity. Qed.

Example head_after_put_hello :
  RefHead Ref.backend "k" put_hello.2 =
  (mkMetadata "del" EmptyString "88" "application/octet-stream" 12 Ref.NeverExpire
     EmptyString "a.txt" [], None).
Proof. vm_compute. reflexivity. Qed.

Example delete_twice :
  let w1 := (RefDelete Ref.backend "k" put_hello.2).2 in
  (RefDelete Ref.backend "k" put_hello.2).1 = None /\
  RefExists Ref.backend "k" w1 = (false, Some (PathError ENOENT)) /\
  (RefDelete Ref.backend "k" w1).1 = Some (PathError ENOENT) /\
  RefGet Ref.backend "k" w1 = (zeroMetadata, nilStream, Some NotFoundErr).
Proof. vm_compute. repeat split; reflexivity. Qed.

Example head_of_garbage :
  RefHead Ref.backend "k"
    (mkWorld (<["meta/k" := list_byte_of_string "not json"]> ∅) no_faults Ref.clock
       Ref.limits)
  = (zeroMetadata, Some BadMetadata).
Proof. vm_compute. reflexivity. Qed.

(** The [Expiry] of a failed [Head] is the zero time of year 1, which is
    not [expiry.NeverExpire]. *)
Example zero_expiry :
  Time_Unix (backends.Expiry zeroMetadata) = -62135596800 /\
  backends.Expiry zeroMetadata <> Ref.NeverExpire.
Proof. split; [vm_compute; reflexivity | vm_compute; discriminate]. Qed.

(** A stream that breaks before its first byte is still reported as empty. *)
Example put_broken_empty_stream :
  RefPut Ref.backend "k" (mkReader [[]] (StreamError 7)) 0 "del" EmptyString EmptyString
    EmptyString Ref.empty_world
  = ((zeroMetadata, Some FileEmptyError), Ref.empty_world).
Proof. vm_compute. reflexivity. Qed.

(** A stream that breaks after some bytes propagates its error. *)
Example put_broken_stream :
  RefPut Ref.backend "k" (mkReader [list_byte_of_string "abc"] (StreamError 7)) 0 "del"
    EmptyString EmptyString EmptyString Ref.empty_world
  = ((zeroMetadata, Some (StreamError 7)), Ref.empty_world).
Proof. vm_compute. reflexivity. Qed.

(** A sidecar whose data file is gone: [Get] reports the failed open,
    and its stream holds the nil file of that open. *)
Example get_without_data :
  RefGet Ref.backend "k"
    (mkWorld (<["meta/k" := Ref.json_Marshal Ref.sidecar]> ∅) no_faults Ref.clock
       Ref.limits)
  = (decoded Ref.sidecar, fileStream None, Some (PathError ENOENT)).
Proof. vm_compute. reflexivity. Qed.

Lemma Put_sha256sum_and_size_witness :
  backends.Sha256sum put_hello.1.1
  = hex_EncodeToString (Ref.sum_digest (r_content Ref.hello)) /\
  backends.Size put_hello.1.1 = Z.of_nat (length (r_content Ref.hello)) /\
  (exists m', RefHead Ref.backend "k" put_hello.2 = (m', None) /\
     backends.Sha256sum m' = hex_EncodeToString (Ref.sum_digest (r_content Ref.hello)) /\
     backends.Size m' = Z.of_nat (length (r_content Ref.hello))) /\
  (Ref.path_Join (metaPath Ref.backend) "k" <> Ref.path_Join (filesPath Ref.backend) "k" ->
   files put_hello.2 !! Ref.path_Join (filesPath Ref.backend) "k"
   = Some (r_content Ref.hello)).
Proof.
  apply (Put_sha256sum_and_size Ref.path_Join Ref.sum_digest Ref.mimetype_Detect
           Ref.ListArchiveFiles Ref.NeverExpire Ref.json_Marshal Ref.json_Unmarshal
           Ref.backend "k" Ref.hello 0 "del" EmptyString "10.0.0.1" "a.txt"
           Ref.empty_world);
    vm_compute; reflexivity.
Defined.


Lemma PutMetadata_Head_roundtrip_witness :
  exists m',
    RefHead Ref.backend "k"
      (RefPutMetadata Ref.backend "k" Ref.half_second Ref.empty_world).2 = (m', None) /\
    backends.DeleteKey m' = "del" /\
    backends.OriginalName m' = "a.txt" /\
    backends.Expiry m' = time_Unix 1 0.
Proof.
  destruct
    (PutMetadata_Head_roundtrip Ref.path_Join Ref.json_Marshal Ref.json_Unmarshal
       Ref.backend "k" Ref.half_second Ref.empty_world
       (RefPutMetadata Ref.backend "k" Ref.half_second Ref.empty_world).2
       ltac:(vm_compute; reflexivity) ltac:(vm_compute; reflexivity)
       ltac:(vm_compute; reflexivity) ltac:(vm_compute; reflexivity))
    as (m' & HHead & Hdel & _ & _ & _ & _ & Hname & _ & Hexp & _).
  exists m'. rewrite Hdel, Hname, Hexp. repeat split. exact HHead.
Defined.

(** C3, as stated, fails: the expiry comes back truncated to the second. *)
Lemma PutMetadata_Head_truncates_expiry :
  (RefPutMetadata Ref.backend "k" Ref.half_second Ref.empty_world).1 = None /\
  RefHead Ref.backend "k"
    (RefPutMetadata Ref.backend "k" Ref.half_second Ref.empty_world).2
  = (mkMetadata "del" EmptyString "ab12" "text/plain" 5 (mkTime 1000000000)
       EmptyString "a.txt" [], None) /\
  (RefHead Ref.backend "k"
     (RefPutMetadata Ref.backend "k" Ref.half_second Ref.empty_world).2).1
  <> Ref.half_second.
Proof. vm_compute. split; [reflexivity|]. split; [reflexivity | discriminate]. Qed.

(** The sidecar of [k] cannot be written in full: the upload fails and
    leaves neither file. *)
Lemma Put_error_cleanup_witness :
  let put :=
    RefPut Ref.backend "k" Ref.hello 0 "del" EmptyString EmptyString "a.txt"
      Ref.meta_full_world in
  put.1.2 = Some (PathError (Fault ENOSPC)) /\
  files put.2 !! "files/k" = None /\ files put.2 !! "meta/k" = None.
Proof.
  intros put.
  destruct
    (Put_error_cleanup Ref.path_Join Ref.sum_digest Ref.mimetype_Detect
       Ref.ListArchiveFiles Ref.NeverExpire Ref.json_Marshal
       Ref.backend "k" Ref.hello 0 "del" EmptyString EmptyString "a.txt"
       Ref.meta_full_world put.1.1 (PathError (Fault ENOSPC)) put.2
       ltac:(vm_compute; reflexivity) ltac:(vm_compute; reflexivity)
       ltac:(vm_compute; reflexivity))
    as (Hdata & Hmeta & _).
  split; [vm_compute; reflexivity|].
  split; [apply Hdata; left; reflexivity | apply Hmeta; reflexivity].
Defined.

(** C4, as stated, fails: a failing [Put] on a key that is already stored
    removes the data file and leaves the earlier sidecar, which [Head]
    goes on serving. *)
Lemma Put_error_keeps_earlier_sidecar :
  let again :=
    RefPut Ref.backend "k" Ref.nothing 0 "del" EmptyString EmptyString EmptyString
      put_hello.2 in
  put_hello.1.2 = None /\
  again.1 = (zeroMetadata, Some FileEmptyError) /\
  files again.2 !! "files/k" = None /\
  files again.2 !! "meta/k" = files put_hello.2 !! "meta/k" /\
  files again.2 !! "meta/k" <> None /\
  (RefHead Ref.backend "k" again.2).2 = None.
Proof. vm_compute. do 4 (split; [reflexivity|]). split; [discriminate | reflexivity]. Qed.

(** Twelve bytes against a limit of ten. *)
Lemma Put_rejects_in_order_witness :
  RefPut Ref.backend "k" Ref.hello 0 "del" EmptyString EmptyString "a.txt" Ref.tight_world
  = ((zeroMetadata, Some FileTooLargeError), without_file Ref.tight_world "files/k").
Proof.
  pose proof
    (Put_rejects_in_order Ref.path_Join Ref.sum_digest Ref.mimetype_Detect
       Ref.ListArchiveFiles Ref.NeverExpire Ref.json_Marshal
       Ref.backend "k" Ref.hello 0 "del" EmptyString EmptyString "a.txt" Ref.tight_world
       12 None
       (io_Copy (mkFile "files/k" 0) (r_chunks Ref.hello) (r_end Ref.hello) [] 0
          (with_file Ref.tight_world "files/k" [])).2
       ltac:(vm_compute; reflexivity) ltac:(vm_compute; reflexivity)
       ltac:(vm_compute; reflexivity)) as P.
  cbv zeta in P.
  destruct P as (_ & _ & P & _).
  apply P; [discriminate | reflexivity | vm_compute; discriminate].
Defined.

(** C6, as stated, fails: key [k/x] has no sidecar, yet [Head] answers
    [BadMetadata] and not [NotFoundErr], and so does [Get].  The sidecar
    of [k] is a regular file, so the open of [meta/k/x] fails with
    [ENOTDIR], which [os.IsNotExist] does not take for a missing file. *)
Lemma Head_absent_sidecar_BadMetadata :
  files Ref.nested_key_world !! Ref.path_Join (metaPath Ref.backend) "k/x" = None /\
  os_Open (Ref.path_Join (metaPath Ref.backend) "k/x") Ref.nested_key_world
  = inr (PathError (Fault ENOTDIR)) /\
  RefHead Ref.backend "k/x" Ref.nested_key_world = (zeroMetadata, Some BadMetadata) /\
  RefGet Ref.backend "k/x" Ref.nested_key_world
  = (zeroMetadata, nilStream, Some BadMetadata) /\
  ~ ((RefHead Ref.backend "k/x" Ref.nested_key_world).2 = Some NotFoundErr <->
     files Ref.nested_key_world !! Ref.path_Join (metaPath Ref.backend) "k/x" = None).
Proof.
  vm_compute. do 4 (split; [reflexivity|]).
  intros [_ H]. specialize (H eq_refl). discriminate.
Qed.



(** The same object behind a public and behind a protected sidecar. *)
Lemma Get_ServeFile_ignore_accessKey_witness :
  let w1 := Ref.stored_world Ref.sidecar in
  let w2 := Ref.stored_world (with_AccessKey "secret" Ref.sidecar) in
  exists f,
    RefGet Ref.backend "k" w1 = (decoded Ref.sidecar, fileStream (Some f), None) /\
    RefGet Ref.backend "k" w2
    = (decoded (with_AccessKey "secret" Ref.sidecar), fileStream (Some f), None) /\
    io_ReadAll f w1 = inl (list_byte_of_string "hello") /\
    io_ReadAll f w2 = inl (list_byte_of_string "hello") /\
    RefServeFile Ref.backend "k" tt w1 = (None, Some (inl (list_byte_of_string "hello"))) /\
    RefServeFile Ref.backend "k" tt w2 = (None, Some (inl (list_byte_of_string "hello"))).
Proof.
  intros w1 w2.
  destruct
    (Get_ServeFile_ignore_accessKey Ref.path_Join Ref.json_Unmarshal
       unit (list byte + error) (fun _ x => x)
       Ref.backend "k" tt w1 (list_byte_of_string "hello")
       (Ref.json_Marshal Ref.sidecar)
       (Ref.json_Marshal (with_AccessKey "secret" Ref.sidecar))
       Ref.sidecar "secret"
       ltac:(vm_compute; discriminate) ltac:(vm_compute; reflexivity)
       ltac:(reflexivity) ltac:(reflexivity) ltac:(reflexivity) ltac:(reflexivity)
       ltac:(vm_compute; reflexivity) ltac:(vm_compute; reflexivity))
    as (f & H1 & H2 & H3 & H4 & H5 & H6 & _).
  exists f.
  assert (with_file w1 "meta/k" (Ref.json_Marshal Ref.sidecar) = w1) as E1
    by (vm_compute; reflexivity).
  assert (with_file w1 "meta/k" (Ref.json_Marshal (with_AccessKey "secret" Ref.sidecar))
          = w2) as E2 by (vm_compute; reflexivity).
  change (Ref.path_Join (metaPath Ref.backend) "k") with "meta/k" in *.
  rewrite E1 in H1, H3, H5. rewrite E2 in H2, H4, H6.
  repeat split; assumption.
Defined.

(** ** Further properties on concrete inputs *)

Lemma Put_changes_only_its_key_witness :
  changes_only [Ref.path_Join (filesPath Ref.backend) "k";
                Ref.path_Join (metaPath Ref.backend) "k"]
    Ref.meta_full_world
    (RefPut Ref.backend "k" Ref.hello 0 "del" EmptyString EmptyString "a.txt"
       Ref.meta_full_world).2.
Proof.
  exact (Put_changes_only_its_key Ref.path_Join Ref.sum_digest Ref.mimetype_Detect
           Ref.ListArchiveFiles Ref.NeverExpire Ref.json_Marshal
           Ref.backend "k" Ref.hello 0 "del" EmptyString EmptyString "a.txt"
           Ref.meta_full_world _ _ ltac:(vm_compute; reflexivity)).
Defined.

Lemma Put_size_within_limits_witness :
  0 < backends.Size put_hello.1.1 < MaxSize (Limits Ref.empty_world).
Proof.
  exact (Put_size_within_limits Ref.path_Join Ref.sum_digest Ref.mimetype_Detect
           Ref.ListArchiveFiles Ref.NeverExpire Ref.json_Marshal
           Ref.backend "k" Ref.hello 0 "del" EmptyString "10.0.0.1" "a.txt"
           Ref.empty_world _ put_hello.2 ltac:(vm_compute; reflexivity)).
Defined.

(** Twelve bytes against a limit of ten: no success. *)
Lemma Put_succeeds_iff_witness :
  (RefPut Ref.backend "k" Ref.hello 0 "del" EmptyString EmptyString "a.txt"
     Ref.tight_world).1.2 = None <->
  r_end Ref.hello = EOF /\ r_content Ref.hello <> [] /\
  Z.of_nat (length (r_content Ref.hello)) < MaxSize (Limits Ref.tight_world).
Proof.
  exact (Put_succeeds_iff Ref.path_Join Ref.sum_digest Ref.mimetype_Detect
           Ref.ListArchiveFiles Ref.NeverExpire Ref.json_Marshal
           Ref.backend "k" Ref.hello 0 "del" EmptyString EmptyString "a.txt"
           Ref.tight_world ltac:(repeat split; reflexivity)
           ltac:(repeat split; reflexivity)).
Defined.

Lemma Put_then_Get_returns_content_witness :
  exists m' f,
    RefGet Ref.backend "k" put_hello.2 = (m', fileStream (Some f), None) /\
    io_ReadAll f put_hello.2 = inl (r_content Ref.hello).
Proof.
  exact (Put_then_Get_returns_content Ref.path_Join Ref.sum_digest Ref.mimetype_Detect
           Ref.ListArchiveFiles Ref.NeverExpire Ref.json_Marshal Ref.json_Unmarshal
           Ref.backend "k" Ref.hello 0 "del" EmptyString "10.0.0.1" "a.txt"
           Ref.empty_world put_hello.1.1 put_hello.2
           ltac:(vm_compute; reflexivity) ltac:(vm_compute; reflexivity)
           ltac:(vm_compute; discriminate) ltac:(reflexivity) ltac:(reflexivity)
           ltac:(reflexivity) ltac:(reflexivity)).
Defined.

(** An upload of 2000 bytes for 1800 s at half past the second. *)
Lemma Put_then_Head_metadata_witness :
  let put :=
    RefPut Ref.backend "k" Ref.big (1800 * time_Second) "del" "secret" "10.0.0.1"
      "b.bin" Ref.empty_world in
  backends.Expiry put.1.1 = mkTime 1700001800500000000 /\
  (RefHead Ref.backend "k" put.2).2 = None /\
  backends.Expiry (RefHead Ref.backend "k" put.2).1 = mkTime 1700001800000000000 /\
  backends.SrcIp (RefHead Ref.backend "k" put.2).1 = EmptyString /\
  backends.AccessKey (RefHead Ref.backend "k" put.2).1 = "secret".
Proof.
  intros put.
  destruct
    (Put_then_Head_metadata Ref.path_Join Ref.sum_digest Ref.mimetype_Detect
       Ref.ListArchiveFiles Ref.NeverExpire Ref.json_Marshal Ref.json_Unmarshal
       Ref.backend "k" Ref.big (1800 * time_Second) "del" "secret" "10.0.0.1"
       "b.bin" Ref.empty_world put.1.1 put.2
       ltac:(vm_compute; reflexivity) ltac:(vm_compute; reflexivity)
       ltac:(reflexivity) ltac:(reflexivity))
    as (expiry' & HHead & Hwhole & Hlo & Hhi).
  rewrite HHead. cbn [fst snd backends.Expiry backends.SrcIp backends.AccessKey].
  assert (backends.Expiry put.1.1 = mkTime 1700001800500000000) as Hput
    by (vm_compute; reflexivity).
  rewrite Hput in *. cbn [unixNano] in *. unfold time_Second in *.
  split_and!; try reflexivity.
  destruct expiry' as [n]. cbn [unixNano] in *. f_equal.
  pose proof (Z_div_mod_eq_full n 1000000000). lia.
Defined.

Lemma Put_expiry_capped_witness :
  unixNano
    (backends.Expiry
       (RefPut Ref.backend "k" Ref.big (7200 * time_Second) "del" EmptyString EmptyString
          EmptyString Ref.unlimited_world).1.1)
  <= unixNano Ref.clock.
Proof.
  pose proof
    (Put_expiry_capped Ref.path_Join Ref.sum_digest Ref.mimetype_Detect
       Ref.ListArchiveFiles Ref.NeverExpire Ref.json_Marshal
       Ref.backend "k" Ref.big (7200 * time_Second) "del" EmptyString EmptyString
       EmptyString Ref.unlimited_world _ _ ltac:(vm_compute; reflexivity)) as P.
  cbv zeta in P. destruct P as (P & _).
  destruct P as (P & _); [vm_compute; reflexivity|].
  specialize (P ltac:(left; vm_compute; discriminate)).
  replace (maxDurationTime Ref.unlimited_world) with 0 in P by (vm_compute; reflexivity).
  rewrite Z.add_0_r in P. exact P.
Defined.

Lemma maxDurationTime_exact_iff_witness :
  (maxDurationTime Ref.empty_world
   = MaxDurationTime (Limits Ref.empty_world) * time_Second <->
   MaxDurationTime (Limits Ref.empty_world) < 9223372037) /\
  - 2^63 <= maxDurationTime Ref.empty_world < 2^63.
Proof. exact (maxDurationTime_exact_iff Ref.empty_world ltac:(vm_compute; discriminate)). Defined.

Lemma Head_PutMetadata_Head_witness :
  let m := (RefHead Ref.backend "k" (Ref.stored_world Ref.sidecar)).1 in
  RefHead Ref.backend "k"
    (RefPutMetadata Ref.backend "k" m (Ref.stored_world Ref.sidecar)).2
  = (m, None).
Proof.
  intros m.
  exact (Head_PutMetadata_Head Ref.path_Join Ref.json_Marshal Ref.json_Unmarshal
           Ref.backend "k" (Ref.stored_world Ref.sidecar) m _
           ltac:(vm_compute; reflexivity) ltac:(vm_compute; reflexivity)
           ltac:(vm_compute; reflexivity) ltac:(reflexivity) ltac:(reflexivity)).
Defined.

Lemma PutMetadata_changes_only_sidecar_witness :
  files (RefPutMetadata Ref.backend "k" Ref.half_second (Ref.stored_world Ref.sidecar)).2
    !! Ref.path_Join (filesPath Ref.backend) "k"
  = files (Ref.stored_world Ref.sidecar) !! Ref.path_Join (filesPath Ref.backend) "k".
Proof.
  exact (proj2
           (PutMetadata_changes_only_sidecar Ref.path_Join Ref.json_Marshal
              Ref.backend "k" Ref.half_second (Ref.stored_world Ref.sidecar) _ _
              ltac:(vm_compute; reflexivity))
           ltac:(vm_compute; discriminate)).
Defined.

Lemma PutMetadata_without_data_witness :
  exists w' e,
    RefPutMetadata Ref.backend "k" Ref.half_second Ref.empty_world = (None, w') /\
    RefHead Ref.backend "k" w' = (decoded (mjson_of Ref.half_second), None) /\
    (RefExists Ref.backend "k" w').1 = false /\
    os_Open "files/k" w' = inr e /\
    RefGet Ref.backend "k" w'
    = (decoded (mjson_of Ref.half_second), fileStream None, Some e) /\
    RefServeFile Ref.backend "k" tt w' = (None, Some (inr e)) /\
    (open_fault (faults Ref.empty_world) "files/k" = None \/
     create_fault (faults Ref.empty_world) "files/k" = None ->
     e = PathError ENOENT).
Proof.
  exact (PutMetadata_without_data Ref.path_Join Ref.json_Marshal Ref.json_Unmarshal
           unit (list byte + error) (fun _ x => x)
           Ref.backend "k" tt Ref.half_second Ref.empty_world
           ltac:(reflexivity) ltac:(vm_compute; discriminate)
           ltac:(repeat split; reflexivity) ltac:(vm_compute; reflexivity)).
Defined.

(** The stored sidecar is lost when its rewrite hits the full directory. *)
Lemma PutMetadata_failed_write_loses_sidecar_witness :
  (RefHead Ref.backend "k" Ref.stored_meta_full_world).2 = None /\
  RefHead Ref.backend "k"
    (RefPutMetadata Ref.backend "k" Ref.half_second Ref.stored_meta_full_world).2
  = (zeroMetadata, Some NotFoundErr).
Proof.
  split; [vm_compute; reflexivity|].
  exact (PutMetadata_failed_write_loses_sidecar Ref.path_Join Ref.json_Marshal
           Ref.json_Unmarshal Ref.backend "k" Ref.half_second
           Ref.stored_meta_full_world (PathError (Fault ENOSPC)) _
           ltac:(vm_compute; reflexivity) ltac:(reflexivity) ltac:(reflexivity)).
Defined.

Lemma Delete_fails_after_removing_data_witness :
  RefDelete Ref.backend "k" Ref.data_only_world
  = (Some (PathError ENOENT),
     without_file Ref.data_only_world (Ref.path_Join (filesPath Ref.backend) "k")) /\
  (RefExists Ref.backend "k"
     (without_file Ref.data_only_world (Ref.path_Join (filesPath Ref.backend) "k"))).1
  = false.
Proof.
  exact (Delete_fails_after_removing_data Ref.path_Join Ref.backend "k"
           Ref.data_only_world (list_byte_of_string "hello") (PathError ENOENT)
           ltac:(vm_compute; reflexivity) ltac:(reflexivity)
           ltac:(vm_compute; reflexivity)).
Defined.

Lemma Put_then_Delete_restores_witness :
  RefDelete Ref.backend "k" put_hello.2 = (None, Ref.empty_world).
Proof.
  exact (Put_then_Delete_restores Ref.path_Join Ref.sum_digest Ref.mimetype_Detect
           Ref.ListArchiveFiles Ref.NeverExpire Ref.json_Marshal
           Ref.backend "k" Ref.hello 0 "del" EmptyString "10.0.0.1" "a.txt"
           Ref.empty_world put_hello.1.1 put_hello.2
           ltac:(vm_compute; reflexivity) ltac:(reflexivity) ltac:(reflexivity)
           ltac:(vm_compute; discriminate) ltac:(reflexivity) ltac:(reflexivity)).
Defined.

Lemma Put_then_Exists_and_Size_witness :
  RefExists Ref.backend "k" put_hello.2 = (true, None) /\
  Size_ Ref.path_Join Ref.backend "k" put_hello.2 = (backends.Size put_hello.1.1, None) /\
  Size_ Ref.path_Join Ref.backend "k" put_hello.2
  = (Z.of_nat (length (r_content Ref.hello)), None).
Proof.
  exact (Put_then_Exists_and_Size Ref.path_Join Ref.sum_digest Ref.mimetype_Detect
           Ref.ListArchiveFiles Ref.NeverExpire Ref.json_Marshal
           Ref.backend "k" Ref.hello 0 "del" EmptyString "10.0.0.1" "a.txt"
           Ref.empty_world put_hello.1.1 put_hello.2
           ltac:(vm_compute; reflexivity) ltac:(vm_compute; discriminate)
           ltac:(reflexivity)).
Defined.

(** The same bytes uploaded under two keys. *)
Lemma Put_Sha256sum_identifies_digest_witness :
  let other :=
    RefPut Ref.backend "k2" Ref.hello_whole 0 "del2" EmptyString EmptyString "b.txt"
      put_hello.2 in
  (backends.Sha256sum put_hello.1.1 = backends.Sha256sum other.1.1 <->
   Ref.sum_digest (r_content Ref.hello) = Ref.sum_digest (r_content Ref.hello_whole)) /\
  String.length (backends.Sha256sum put_hello.1.1)
  = (2 * length (Ref.sum_digest (r_content Ref.hello)))%nat.
Proof.
  intros other.
  exact (Put_Sha256sum_identifies_digest Ref.path_Join Ref.sum_digest
           Ref.mimetype_Detect Ref.ListArchiveFiles Ref.NeverExpire Ref.json_Marshal
           Ref.backend "k" Ref.hello 0 "del" EmptyString "10.0.0.1" "a.txt"
           Ref.empty_world put_hello.1.1 put_hello.2
           Ref.backend "k2" Ref.hello_whole 0 "del2" EmptyString EmptyString "b.txt"
           put_hello.2 other.1.1 other.2
           ltac:(vm_compute; reflexivity) ltac:(vm_compute; reflexivity)).
Defined.

Lemma Put_then_List_witness :
  exists names names',
    List Ref.backend Ref.empty_world = (names, None) /\
    List Ref.backend put_hello.2 = (names', None) /\
    forall name, name ∈ names' <-> name = "k" \/ name ∈ names.
Proof.
  exact (Put_then_List Ref.path_Join Ref.sum_digest Ref.mimetype_Detect
           Ref.ListArchiveFiles Ref.NeverExpire Ref.json_Marshal
           Ref.backend "k" Ref.hello 0 "del" EmptyString "10.0.0.1" "a.txt"
           Ref.empty_world put_hello.1.1 put_hello.2
           ltac:(vm_compute; reflexivity) ltac:(vm_compute; reflexivity)
           ltac:(vm_compute; reflexivity) ltac:(split; reflexivity)).
Defined.

Lemma PutMetadata_then_List_witness :
  exists names names',
    List Ref.backend Ref.data_only_world = (names, None) /\
    List Ref.backend
      (RefPutMetadata Ref.backend "k" Ref.half_second Ref.data_only_world).2
    = (names', None) /\
    forall name, name ∈ names' <-> name ∈ names.
Proof.
  exact (PutMetadata_then_List Ref.path_Join Ref.json_Marshal
           Ref.backend "k" Ref.half_second Ref.data_only_world _ _
           ltac:(vm_compute; reflexivity) ltac:(vm_compute; reflexivity)
           ltac:(split; reflexivity)).
Defined.

Lemma List_includes_data_without_sidecar_witness :
  exists names,
    List Ref.backend Ref.data_only_world = (names, None) /\ "k" ∈ names /\
    RefHead Ref.backend "k" Ref.data_only_world = (zeroMetadata, Some NotFoundErr) /\
    (open_fault (faults Ref.data_only_world) "meta/k" = None \/
     create_fault (faults Ref.data_only_world) "meta/k" = None ->
     RefHead Ref.backend "k" Ref.data_only_world = (zeroMetadata, Some NotFoundErr)).
Proof.
  exact (List_includes_data_without_sidecar Ref.path_Join Ref.json_Unmarshal
           Ref.backend "k" Ref.data_only_world (list_byte_of_string "hello")
           ltac:(vm_compute; reflexivity) ltac:(vm_compute; reflexivity)
           ltac:(vm_compute; reflexivity) ltac:(split; reflexivity)).
Defined.

Lemma stored_world_single_entry p :
  is_Some (files (Ref.stored_world Ref.sidecar) !! p) ->
  entry_of (filesPath Ref.backend) p = Some "k" ->
  p = Ref.path_Join (filesPath Ref.backend) "k".
Proof.
  unfold Ref.stored_world. cbn [files]. intros Hp He.
  apply lookup_insert_is_Some in Hp as [<-|[_ Hp]]; [vm_compute in He; discriminate|].
  apply lookup_insert_is_Some in Hp as [<-|[_ Hp]]; [reflexivity|].
  rewrite lookup_empty in Hp. by destruct Hp.
Defined.

Lemma Delete_then_List_witness :
  exists names names',
    List Ref.backend (Ref.stored_world Ref.sidecar) = (names, None) /\
    List Ref.backend (RefDelete Ref.backend "k" (Ref.stored_world Ref.sidecar)).2
    = (names', None) /\
    forall name, name ∈ names' <-> name ∈ names /\ name <> "k".
Proof.
  exact (Delete_then_List Ref.path_Join Ref.backend "k" (Ref.stored_world Ref.sidecar) _
           ltac:(vm_compute; reflexivity) ltac:(vm_compute; reflexivity)
           ltac:(vm_compute; reflexivity) stored_world_single_entry
           ltac:(split; reflexivity)).
Defined.

Lemma Put_independent_of_chunking_witness :
  RefPut Ref.backend "k" Ref.hello 0 "del" EmptyString EmptyString "a.txt" Ref.empty_world
  = RefPut Ref.backend "k" Ref.hello_whole 0 "del" EmptyString EmptyString "a.txt"
      Ref.empty_world.
Proof.
  exact (Put_independent_of_chunking Ref.path_Join Ref.sum_digest Ref.mimetype_Detect
           Ref.ListArchiveFiles Ref.NeverExpire Ref.json_Marshal
           Ref.backend "k" Ref.hello Ref.hello_whole 0 "del" EmptyString EmptyString
           "a.txt" Ref.empty_world
           ltac:(vm_compute; reflexivity) ltac:(reflexivity) ltac:(reflexivity)).
Defined.

Lemma Get_success_inv_witness :
  exists c mjson data,
    files put_hello.2 !! Ref.path_Join (metaPath Ref.backend) "k" = Some c /\
    Ref.json_Unmarshal c = Some mjson /\
    (RefGet Ref.backend "k" put_hello.2).1.1 = decoded mjson /\
    files put_hello.2 !! Ref.path_Join (filesPath Ref.backend) "k" = Some data /\
    mkFile "files/k" 0 = mkFile (Ref.path_Join (filesPath Ref.backend) "k") 0 /\
    (read_fault (faults put_hello.2) (Ref.path_Join (filesPath Ref.backend) "k") = None ->
     io_ReadAll (mkFile "files/k" 0) put_hello.2 = inl data).
Proof.
  exact (Get_success_inv Ref.path_Join Ref.json_Unmarshal Ref.backend "k" put_hello.2
           (RefGet Ref.backend "k" put_hello.2).1.1 (mkFile "files/k" 0)
           ltac:(vm_compute; reflexivity)).
Defined.
